(** * IoT temperature ingestion pipeline

    A shallow embedding of [dlt_ingest/iot_temperature_pipeline.py]: the
    content hasher, the processed-file lookup, the multi-encoding CSV loader,
    the schema dispatch, the vendor and generic transformations, and the two
    dlt resources ([load_temperature_files], [log_file_processing]).

    Conventions.
    - A Python [str] is a [string] whose characters are code points; the case
      mappings are the ASCII ones (characters above 127 are left as they are).
    - A Python [float] is a binary64 [float]; an [int] cell is a [Z] holding an
      int64.
    - pandas, numpy's legacy generator, hashlib, the repr of floats and the
      wall clock are libraries the program calls: they are the fields of the
      class [Libs], and every result below holds for all of them.
    - Printing, the global numpy generator and the clock are threaded through
      an explicit [World].
    - The landing zone does not change during a run: a path answers the same
      to [open] and to [stat] each time it is asked.
    - A row label of a table is what [read_csv] can put in the index: an
      int, a float, a bool, a text, or a tuple of cells.
    - A generator is what it yields before it stops and the exception that
      stopped it, if any; a run drains the first resource, then the second. *)

From Stdlib Require Import ZArith Ascii Uint63 PrimFloat.
From stdpp Require Import gmap strings list pretty.

Local Open Scope Z_scope.
#[local] Set Warnings "-inexact-float".

(** ** Python text *)

Module Text.

Definition upper_char (c : ascii) : ascii :=
  let n := N_of_ascii c in
  if ((97 <=? n) && (n <=? 122))%N then ascii_of_N (n - 32) else c.

Definition lower_char (c : ascii) : ascii :=
  let n := N_of_ascii c in
  if ((65 <=? n) && (n <=? 90))%N then ascii_of_N (n + 32) else c.

(** [s.upper()] and [s.lower()] *)
Fixpoint upper (s : string) : string :=
  match s with
  | EmptyString => EmptyString
  | String c r => String (upper_char c) (upper r)
  end.

Fixpoint lower (s : string) : string :=
  match s with
  | EmptyString => EmptyString
  | String c r => String (lower_char c) (lower r)
  end.

(** [s.split(sep)] for a one-character separator: never the empty list. *)
Fixpoint split (sep : ascii) (s : string) : list string :=
  match s with
  | EmptyString => [EmptyString]
  | String c r =>
      if Ascii.eqb c sep then EmptyString :: split sep r
      else match split sep r with
           | [] => [String c EmptyString]
           | seg :: segs => String c seg :: segs
           end
  end.

(** [l[-1]] on the result of a split *)
Definition last_segment (l : list string) : string := List.last l EmptyString.

(** [s[:n]] *)
Fixpoint take (n : nat) (s : string) : string :=
  match n, s with
  | S k, String c r => String c (take k r)
  | _, _ => EmptyString
  end.

(** [s[-n:]] for [n > 0], used only to state what the code does not do. *)
Definition take_last (n : nat) (s : string) : string :=
  String.substring (String.length s - n) n s.

(** [s.replace(old, new)] for a non-empty [old]: occurrences are replaced
    from the left and do not overlap. [skip] counts the characters of a
    matched occurrence still to be passed over. *)
Fixpoint replace_from (old new : string) (skip : nat) (s : string) : string :=
  match s with
  | EmptyString => EmptyString
  | String c r =>
      match skip with
      | S k => replace_from old new k r
      | O =>
          if String.prefix old s
          then new +:+ replace_from old new (String.length old - 1) r
          else String c (replace_from old new 0 r)
      end
  end.

Definition replace (old new s : string) : string := replace_from old new 0 s.

(** [re.search(pat, s, re.IGNORECASE)] for a pattern of plain letters, which
    is what [Series.str.contains(pat, case=False)] evaluates per element. *)
Fixpoint prefix_ci (pat s : string) : bool :=
  match pat, s with
  | EmptyString, _ => true
  | String a pat', String b s' =>
      Ascii.eqb (lower_char a) (lower_char b) && prefix_ci pat' s'
  | String _ _, EmptyString => false
  end.

Fixpoint contains_ci (pat s : string) : bool :=
  prefix_ci pat s ||
  match s with
  | EmptyString => false
  | String _ r => contains_ci pat r
  end.

(** plain substring test, [pat in s] *)
Fixpoint contains (pat s : string) : bool :=
  String.prefix pat s ||
  match s with
  | EmptyString => false
  | String _ r => contains pat r
  end.

Definition ends_with (suffix s : string) : bool :=
  String.eqb (take_last (String.length suffix) s) suffix.

(** [sep.join(l)] *)
Fixpoint join (sep : ascii) (l : list string) : string :=
  match l with
  | [] => EmptyString
  | [x] => x
  | x :: rest => x +:+ String sep (join sep rest)
  end.

(** [c in s] for one character *)
Fixpoint has_char (c : ascii) (s : string) : bool :=
  match s with
  | EmptyString => false
  | String a r => Ascii.eqb a c || has_char c r
  end.

End Text.

(** ** binary64 arithmetic as numpy applies it *)

Module Float.

Local Open Scope float_scope.

(** conversion of a magnitude up to [2^63], to the nearest float; [2^63],
    the magnitude of the least int64, is a power of two *)
Definition of_magnitude (a : Z) : float :=
  if (a <? 9223372036854775808)%Z then PrimFloat.of_uint63 (Uint63.of_Z a)
  else 9223372036854775808.

(** conversion of an int64 *)
Definition of_Z (z : Z) : float :=
  match z with
  | Z0 => 0
  | Zpos _ => of_magnitude z
  | Zneg p => - of_magnitude (Zpos p)
  end.

Definition sign_bit (x : float) : bool :=
  match PrimFloat.classify x with
  | FloatClass.NNormal | FloatClass.NSubn
  | FloatClass.NZero | FloatClass.NInf => true
  | _ => false
  end.

(** [np.rint]: to the nearest integer, ties to even, sign kept *)
Definition rint (x : float) : float :=
  let a := abs x in
  if a <? 4503599627370496 then
    let r := (a + 4503599627370496) - 4503599627370496 in
    if sign_bit x then - r else r
  else x.

(** [np.round(x, 1)]: scale by ten, [rint], scale back *)
Definition round1 (x : float) : float := rint (x * 10) / 10.

(** [np.clip(x, lo, hi)]; a NaN stays a NaN *)
Definition clip (x lo hi : float) : float :=
  if x <? lo then lo else if hi <? x then hi else x.

End Float.

(** ** Cells and tables *)

(** What a cell of a table holds: the values [read_csv] produces (a missing
    entry is the float NaN) and the timestamps [to_datetime] adds. *)
Inductive scalar : Type :=
| SInt (z : Z)
| SFloat (f : float)
| SBool (b : bool)
| SStr (s : string)
| STime (t : Z)
| SNaT.

(** [pd.isna] / [pd.notna] on one value *)
Definition isna (x : scalar) : bool :=
  match x with
  | SFloat f => PrimFloat.is_nan f
  | SNaT => true
  | _ => false
  end.

Definition notna (x : scalar) : bool := negb (isna x).

(** A row label. [read_csv] numbers the rows 0, 1, ... unless the data rows
    have more fields than the header: then the first field of each row is
    its label, an int, a float, a bool or a text as that field parses, and
    with several fields more the label is the tuple of the first fields. *)
Inductive label : Type :=
| LInt (z : Z)
| LFloat (f : float)
| LBool (b : bool)
| LStr (s : string)
| LTuple (l : list scalar).

(** A DataFrame: the row labels and the columns in order, each column with
    its label. A cell a column does not have reads as missing. *)
Record DataFrame : Type := mkDataFrame {
  df_index : list label;
  df_data : list (string * list scalar)
}.

Definition missing : scalar := SFloat PrimFloat.nan.

(** [len(df)] *)
Definition len (df : DataFrame) : nat := length (df_index df).

(** [df.columns] *)
Definition columns (df : DataFrame) : list string := (df_data df).*1.

(** [df.empty]: no row or no column *)
Definition empty (df : DataFrame) : bool :=
  match df_index df, df_data df with
  | [], _ | _, [] => true
  | _, _ => false
  end.

(** the [n] cells of a column, by position *)
Definition cells (n : nat) (vals : list scalar) : list scalar :=
  (fun p => nth p vals missing) <$> seq 0 n.

Fixpoint find_column (c : string) (data : list (string * list scalar))
  : option (list scalar) :=
  match data with
  | [] => None
  | (k, vals) :: rest => if String.eqb k c then Some vals else find_column c rest
  end.

(** The exceptions the program meets. *)
Inductive exn : Type :=
| FileNotFoundError
| PermissionError
| OSError
| UnicodeDecodeError
| EmptyDataError
| ParserError
| ValueError
| TypeError
| KeyError (key : string).

(** [df[c]]: the column labelled [c], or [KeyError] *)
Definition getitem (df : DataFrame) (c : string) : exn + list scalar :=
  match find_column c (df_data df) with
  | Some vals => inr (cells (len df) vals)
  | None => inl (KeyError c)
  end.

(** *** [df.values]: the rows, with the columns brought to one dtype *)

Inductive dtype : Type := Int64 | Float64 | Bool | Datetime64 | Object.

Definition is_int (x : scalar) : bool := match x with SInt _ => true | _ => false end.
Definition is_float (x : scalar) : bool := match x with SFloat _ => true | _ => false end.
Definition is_bool (x : scalar) : bool := match x with SBool _ => true | _ => false end.
Definition is_time (x : scalar) : bool :=
  match x with STime _ | SNaT => true | _ => false end.

(** the dtype pandas gives a column holding these cells *)
Definition dtype_of (vals : list scalar) : dtype :=
  if forallb is_int vals then Int64
  else if forallb is_float vals then Float64
  else if forallb is_bool vals then Bool
  else if forallb is_time vals then Datetime64
  else Object.

Definition is_numeric (d : dtype) : bool :=
  match d with Int64 | Float64 => true | _ => false end.

Definition is_Float64 (d : dtype) : bool :=
  match d with Float64 => true | _ => false end.

(** int64 and float64 columns together make a float64 block; any other mix
    is an object block, whose entries keep their Python types. *)
Definition upcasts (cols : list (list scalar)) : bool :=
  let dts := dtype_of <$> cols in
  forallb is_numeric dts && existsb is_Float64 dts.

Definition as_float64 (x : scalar) : scalar :=
  match x with
  | SInt z => SFloat (Float.of_Z z)
  | _ => x
  end.

Definition values (df : DataFrame) : list (list scalar) :=
  let n := len df in
  let cols := (fun kv => cells n kv.2) <$> df_data df in
  let conv := if upcasts cols then as_float64 else (fun x => x) in
  (fun p => (fun col => conv (nth p col missing)) <$> cols) <$> seq 0 n.

(** [row[c]] on a row of [df.values] labelled by [df.columns] *)
Fixpoint row_get (labels : list string) (row : list scalar) (c : string)
  : exn + scalar :=
  match labels, row with
  | k :: labels', x :: row' => if String.eqb k c then inr x else row_get labels' row' c
  | _, _ => inl (KeyError c)
  end.

(** A Python dict with string keys: the emitted records and log entries. *)
Abbreviation record := (gmap string scalar).

(** [row.to_dict()]: a later column wins over an earlier one of the same label *)
Definition to_dict (labels : list string) (row : list scalar) : record :=
  list_to_map (reverse (zip labels row)).

(** [df.iterrows()]: each row label with its row of [df.values] *)
Definition iterrows (df : DataFrame) : list (label * list scalar) :=
  zip (df_index df) (values df).

(** [df.rename(columns={old: new})] *)
Definition rename (old new : string) (df : DataFrame) : DataFrame :=
  mkDataFrame (df_index df)
    ((fun kv => (if String.eqb kv.1 old then new else kv.1, kv.2)) <$> df_data df).

(** keep the positions where [mask] holds, in every column and in the index;
    this is [dropna] once the mask is computed *)
Fixpoint select {A : Type} (mask : list bool) (l : list A) : list A :=
  match mask, l with
  | true :: mask', x :: l' => x :: select mask' l'
  | false :: mask', _ :: l' => select mask' l'
  | _, _ => []
  end.

(** [df.dropna(subset=[c])] *)
Definition dropna (c : string) (df : DataFrame) : exn + DataFrame :=
  match getitem df c with
  | inl e => inl e
  | inr vals =>
      let mask := notna <$> vals in
      inr (mkDataFrame (select mask (df_index df))
             ((fun kv => (kv.1, select mask (cells (len df) kv.2))) <$> df_data df))
  end.

(** ** The file system as the run sees it *)

Record stat_result : Type := mkStat { st_size : Z; st_mtime : Z }.

(** A path of the landing zone with what the operating system answers for it:
    its bytes when it is opened and read, its status when it is stat'ed.
    Each of the two can fail on its own. *)
Record Path : Type := mkPath {
  path_name : string;                     (* [p.name] *)
  path_str : string;                      (* [str(p)] *)
  path_open : exn + list Byte.byte;       (* [open(p, "rb")] and the reads *)
  path_stat : exn + stat_result           (* [p.stat()] *)
}.

(** ** What the program prints, one constructor per [print] *)

Inductive Msg : Type :=
| MsgSkipping (file_name : string)
| MsgProcessing (file_name : string)
| MsgEmptyOrUnreadable (file_name : string)
| MsgProcessed (n : nat) (file_name : string)
| MsgError (file_name : string) (e : exn)
| MsgLoaded (file_name encoding : string)
| MsgEncodingError (encoding : string) (e : exn)
| MsgCouldNotRead (file_name : string)
| MsgStandardFormat (file_name : string)
| MsgKaggleFormat (file_name : string)
| MsgUnknownFormat (file_name : string)
| MsgRemoved (k : nat)
| MsgColumns (cols : list string)
| MsgCleaned (cols : list string)
| MsgRecords (n : nat).

(** ** The libraries the program calls *)

Class Libs : Type := {
  (** [str(x)] and [float(s)] of CPython; [None] is [ValueError] *)
  float_repr : float -> string;
  float_of_str : string -> option float;
  (** [str(t)] of a pandas Timestamp *)
  timestamp_repr : Z -> string;
  (** [hashlib.sha256(data).hexdigest()] *)
  sha256_hexdigest : list Byte.byte -> string;
  (** [pd.read_csv(path, encoding=enc)] *)
  read_csv : Path -> string -> exn + DataFrame;
  (** [pd.to_datetime(x, format=fmt, errors='coerce')] on one value;
      [None] is NaT *)
  to_datetime : string -> scalar -> option Z;
  (** numpy's global legacy generator: its state, [np.random.seed], and one
      sample of [normal(loc, scale)], of [uniform(low, high)] and of the index
      [choice] picks among [k] items. A call with [size=n] takes [n] samples,
      one after the other. *)
  RandomState : Type;
  random_seed : Z -> RandomState;
  random_normal : float -> float -> RandomState -> float * RandomState;
  random_uniform : float -> float -> RandomState -> float * RandomState;
  random_choice : nat -> RandomState -> nat * RandomState;
  (** the value of the [k]-th reading of the clock, [datetime.now()] *)
  clock : nat -> Z
}.

(** ** The program *)

Section Pipeline.

Context `{L : Libs}.

(** What a run reads and changes besides its arguments. *)
Record World : Type := mkWorld {
  w_rng : RandomState;        (* numpy's global generator *)
  w_out : list Msg;           (* standard output, oldest first *)
  w_clock : nat               (* readings of the clock so far *)
}.

(** A computation either raises or returns, and changes the world. *)
Definition M (A : Type) : Type := World -> (exn + A) * World.

Definition ret {A : Type} (a : A) : M A := fun w => (inr a, w).

Definition raise {A : Type} (e : exn) : M A := fun w => (inl e, w).

Definition bind {A B : Type} (m : M A) (k : A -> M B) : M B :=
  fun w =>
    match m w with
    | (inl e, w') => (inl e, w')
    | (inr a, w') => k a w'
    end.

Notation "x <- m ;; k" := (bind m (fun x => k))
  (at level 100, m at next level, right associativity).
Notation "m ;;; k" := (bind m (fun _ => k))
  (at level 100, right associativity).

(** a pure step that may raise *)
Definition lift {A : Type} (r : exn + A) : M A :=
  match r with
  | inl e => raise e
  | inr a => ret a
  end.

(** the world after [print(m)] *)
Definition say (m : Msg) (w : World) : World :=
  mkWorld (w_rng w) (w_out w ++ [m]) (w_clock w).

Definition print (m : Msg) : M unit := fun w => (inr tt, say m w).

(** [datetime.now()] *)
Definition datetime_now : M Z :=
  fun w => (inr (clock (w_clock w)), mkWorld (w_rng w) (w_out w) (S (w_clock w))).

(** [np.random.seed(s)] *)
Definition np_random_seed (s : Z) : M unit :=
  fun w => (inr tt, mkWorld (random_seed s) (w_out w) (w_clock w)).

(** [n] samples in a row from the generator state [g] *)
Fixpoint samples {A : Type} (draw : RandomState -> A * RandomState)
  (n : nat) (g : RandomState) : list A * RandomState :=
  match n with
  | O => ([], g)
  | S k =>
      let (x, g') := draw g in
      let (xs, g'') := samples draw k g' in
      (x :: xs, g'')
  end.

Definition with_rng {A : Type} (f : RandomState -> A * RandomState) : M A :=
  fun w =>
    let (a, g) := f (w_rng w) in
    (inr a, mkWorld g (w_out w) (w_clock w)).

(** [np.random.normal(loc, scale, n)], [np.random.uniform(low, high, n)],
    [np.random.choice(items, n)] *)
Definition np_random_normal (loc scale : float) (n : nat) : M (list float) :=
  with_rng (samples (random_normal loc scale) n).

Definition np_random_uniform (low high : float) (n : nat) : M (list float) :=
  with_rng (samples (random_uniform low high) n).

Definition np_random_choice (items : list string) (n : nat) : M (list string) :=
  with_rng (fun g =>
    let (picks, g') := samples (random_choice (length items)) n g in
    ((fun i => nth i items EmptyString) <$> picks, g')).

(** [str(x)] *)
Definition str (x : scalar) : string :=
  match x with
  | SInt z => pretty z
  | SFloat f => float_repr f
  | SBool true => "True"
  | SBool false => "False"
  | SStr s => s
  | STime t => timestamp_repr t
  | SNaT => "NaT"
  end.

(** one cell of [series.astype(float)] *)
Definition to_float (x : scalar) : exn + float :=
  match x with
  | SInt z => inr (Float.of_Z z)
  | SFloat f => inr f
  | SBool true => inr 1%float
  | SBool false => inr 0%float
  | SStr s =>
      match float_of_str s with
      | Some f => inr f
      | None => inl ValueError
      end
  | STime _ | SNaT => inl TypeError
  end.

(** [series.astype(float)]: the first cell that does not convert raises *)
Fixpoint astype_float (vals : list scalar) : exn + list float :=
  match vals with
  | [] => inr []
  | x :: rest =>
      match to_float x with
      | inl e => inl e
      | inr f =>
          match astype_float rest with
          | inl e => inl e
          | inr fs => inr (f :: fs)
          end
      end
  end.

(** *** [_calculate_file_hash] *)

(** The read loop: [f.read(4096)] until it returns no byte, each chunk
    passed to [update]. The hash object is the bytes it has absorbed;
    [fuel] bounds the number of reads. *)
Fixpoint read_chunks (fuel : nat) (rest absorbed : list Byte.byte) : list Byte.byte :=
  match fuel with
  | O => absorbed
  | S k =>
      match take 4096 rest with
      | [] => absorbed
      | chunk => read_chunks k (drop 4096 rest) (absorbed ++ chunk)
      end
  end.

Definition _calculate_file_hash (file_path : Path) : exn + string :=
  match path_open file_path with
  | inr content =>
      inr (sha256_hexdigest (read_chunks (S (length content)) content []))
  | inl _ =>
      (* except Exception: the handler itself calls stat() *)
      match path_stat file_path with
      | inr st =>
          inr ("error_" +:+ path_name file_path +:+ "_" +:+ pretty (st_size st))
      | inl e => inl e
      end
  end.

(** *** [_get_processed_files] *)

Definition _get_processed_files : gset string := ∅.

(** *** [_load_csv_with_fallback] *)

Definition encodings : list string :=
  ["utf-8"; "utf-8-sig"; "latin1"; "cp1252"; "iso-8859-1"].

Fixpoint try_encodings (file_path : Path) (encs : list string) : M (option DataFrame) :=
  match encs with
  | [] =>
      print (MsgCouldNotRead (path_name file_path)) ;;;
      ret None
  | encoding :: rest =>
      match read_csv file_path encoding with
      | inr df =>
          print (MsgLoaded (path_name file_path) encoding) ;;;
          ret (Some df)
      | inl UnicodeDecodeError => try_encodings file_path rest
      | inl e =>
          print (MsgEncodingError encoding e) ;;;
          try_encodings file_path rest
      end
  end.

Definition _load_csv_with_fallback (file_path : Path) : M (option DataFrame) :=
  try_encodings file_path encodings.

(** *** [_transform_kaggle_format] *)

(** the lambda applied to [df['id']] *)
Definition device_id_of (x : scalar) : string :=
  if notna x
  then "IOT_TEMP_" +:+
       Text.upper (Text.take 8 (Text.last_segment (Text.split "_"%char (str x))))
  else "IOT_TEMP_UNKNOWN".

(** one cell of [pd.to_datetime(..., format='%d-%m-%Y %H:%M', errors='coerce')] *)
Definition timestamp_of (x : scalar) : scalar :=
  match to_datetime "%d-%m-%Y %H:%M" x with
  | Some t => STime t
  | None => SNaT
  end.

(** the lambda applied to each row for the location *)
Definition location_of (labels : list string) (row : list scalar) : exn + string :=
  match row_get labels row "room_id/id" with
  | inl e => inl e
  | inr room =>
      match row_get labels row "out/in" with
      | inl e => inl e
      | inr qualifier =>
          inr (Text.replace "Admin" "Office" (Text.replace "Room " "" (str room))
               +:+ "_" +:+ Text.lower (str qualifier))
      end
  end.

Fixpoint map_rows {A : Type} (f : list scalar -> exn + A) (rows : list (list scalar))
  : exn + list A :=
  match rows with
  | [] => inr []
  | row :: rest =>
      match f row with
      | inl e => inl e
      | inr a =>
          match map_rows f rest with
          | inl e => inl e
          | inr l => inr (a :: l)
          end
      end
  end.

(** [df.apply(lambda row: ..., axis=1)] assigned to one column. On a table
    without rows [apply] does not hand back a column of texts and the
    transformation raises, here or at the first use of the column as text,
    depending on the pandas version; the pipeline passes no such table
    (line 47), and no claim below depends on how it fails. *)
Definition apply_location (df : DataFrame) : exn + list string :=
  match len df with
  | O => inl ValueError
  | S _ => map_rows (location_of (columns df)) (values df)
  end.

Local Open Scope float_scope.

(** [location.str.contains('in', case=False, na=False)] on one location *)
Definition indoor (location : string) : bool := Text.contains_ci "in" location.

Definition base_humidity_of (location : string) : Z :=
  if indoor location then 45%Z else 65%Z.

Definition base_signal_of (location : string) : Z :=
  if indoor location then (-55)%Z else (-45)%Z.

Definition humidity_of (base : Z) (temperature noise : float) : float :=
  Float.round1 (Float.clip (Float.of_Z base + (temperature - 25) * -1.2 + noise) 20 95).

Definition battery_of (base : float) (i : nat) (noise : float) : float :=
  Float.round1
    (Float.clip (base - Float.of_Z (Z.of_nat i) * 0.001 + noise) 10 100).

Definition signal_of (base : Z) (noise : float) : float :=
  Float.round1 (Float.clip (Float.of_Z base + noise) (-90) (-20)).

Definition device_types : list string :=
  ["DHT22"; "DS18B20"; "SHT30"; "BME280"; "TMP36"].

Definition firmware_versions : list string :=
  ["v1.2.3"; "v1.2.4"; "v1.3.0"; "v1.3.1"; "v2.0.0"].

Definition _transform_kaggle_format (df : DataFrame) : M DataFrame :=
  ids <- lift (getitem df "id") ;;
  let device_id := device_id_of <$> ids in
  noted_date <- lift (getitem df "noted_date") ;;
  let timestamp := timestamp_of <$> noted_date in
  temp <- lift (getitem df "temp") ;;
  temperature <- lift (astype_float temp) ;;
  location <- lift (apply_location df) ;;
  np_random_seed 42 ;;;
  let n := len df in
  let base_humidity := base_humidity_of <$> location in
  humidity_noise <- np_random_normal 0 8 n ;;
  let humidity :=
    zip_with (fun bt noise => humidity_of bt.1 bt.2 noise)
      (zip base_humidity temperature) humidity_noise in
  base_battery <- np_random_uniform 70 100 n ;;
  battery_noise <- np_random_normal 0 5 n ;;
  let battery_level :=
    zip_with (fun bi noise => battery_of bi.1 bi.2 noise)
      (zip base_battery (seq 0 n)) battery_noise in
  let base_signal := base_signal_of <$> location in
  signal_noise <- np_random_normal 0 10 n ;;
  let signal_strength := zip_with signal_of base_signal signal_noise in
  device_type <- np_random_choice device_types n ;;
  firmware_version <- np_random_choice firmware_versions n ;;
  let transformed_df :=
    mkDataFrame (df_index df)
      [("device_id", SStr <$> device_id);
       ("timestamp", timestamp);
       ("temperature", SFloat <$> temperature);
       ("location", SStr <$> location);
       ("humidity", SFloat <$> humidity);
       ("battery_level", SFloat <$> battery_level);
       ("signal_strength", SFloat <$> signal_strength);
       ("device_type", SStr <$> device_type);
       ("firmware_version", SStr <$> firmware_version)] in
  let initial_count := len transformed_df in
  kept <- lift (dropna "timestamp" transformed_df) ;;
  (if bool_decide (len kept = initial_count) then ret tt
   else print (MsgRemoved (initial_count - len kept))) ;;;
  ret kept.

Local Close Scope float_scope.

(** *** [_transform_generic_format] *)

Definition _transform_generic_format (df : DataFrame) : M DataFrame :=
  print (MsgColumns (columns df)) ;;;
  let new_df := df in
  let new_df :=
    if bool_decide ("room_id/id" ∈ columns new_df)
    then rename "room_id/id" "room_id_id" new_df else new_df in
  let new_df :=
    if bool_decide ("out/in" ∈ columns new_df)
    then rename "out/in" "out_in" new_df else new_df in
  print (MsgCleaned (columns new_df)) ;;;
  print (MsgRecords (len new_df)) ;;;
  ret new_df.

(** *** [_transform_to_standard_format] *)

Definition expected_columns : gset string :=
  {[ "device_id"; "timestamp"; "temperature" ]}.

Definition kaggle_columns : gset string :=
  {[ "id"; "room_id/id"; "noted_date"; "temp"; "out/in" ]}.

(** [cols.issubset(set(df.columns))] *)
Definition issubset (cols : gset string) (df : DataFrame) : bool :=
  bool_decide (cols ⊆ list_to_set (columns df)).

Definition _transform_to_standard_format (df : DataFrame) (file_name : string)
  : M DataFrame :=
  if issubset expected_columns df then
    print (MsgStandardFormat file_name) ;;;
    ret df
  else if issubset kaggle_columns df then
    print (MsgKaggleFormat file_name) ;;;
    _transform_kaggle_format df
  else
    print (MsgUnknownFormat file_name) ;;;
    _transform_generic_format df.

(** *** The resource [load_temperature_files] *)

(** What a generator has yielded when it stops, and the exception that
    stopped it, if one did. *)
Definition Gen (A : Type) : Type := World -> (list A * option exn) * World.

(** the dict literal [file_metadata] *)
Definition file_metadata_of (csv_file : Path) (size : Z) (file_hash : string)
  (now : Z) (total : nat) : record :=
  <[ "file_name" := SStr (path_name csv_file) ]>
  (<[ "file_path" := SStr (path_str csv_file) ]>
  (<[ "file_size_bytes" := SInt size ]>
  (<[ "file_hash" := SStr file_hash ]>
  (<[ "ingestion_timestamp" := STime now ]>
  (<[ "total_records" := SInt (Z.of_nat total) ]> ∅))))).

(** The two entries of the update that depend on the row,
    [f"{file_hash}_{idx}"] and [idx + 1], evaluated in this order. The text
    is formatted without raising and without effect; [idx + 1] raises on a
    text and on a tuple, and then nothing of the text is seen. A float
    label is a Python float, a bool label a Python bool. *)
Definition identify (file_hash : string) (idx : label) : exn + (string * scalar) :=
  match idx with
  | LInt z => inr (file_hash +:+ "_" +:+ pretty z, SInt (z + 1))
  | LFloat f => inr (file_hash +:+ "_" +:+ float_repr f, SFloat (f + 1)%float)
  | LBool b =>
      inr (file_hash +:+ "_" +:+ (if b then "True" else "False"),
           SInt (Z.b2z b + 1))
  | LStr _ | LTuple _ => inl TypeError
  end.

(** [record.update({'file_record_id': ..., 'row_number': ..., **file_metadata})]:
    the keys of the update win over the row's. *)
Definition enrich (file_hash : string) (file_metadata : record)
  (idx : label) (row : record) : exn + record :=
  match identify file_hash idx with
  | inl e => inl e
  | inr (file_record_id, row_number) =>
      inr ((file_metadata ∪
             (<[ "file_record_id" := SStr file_record_id ]>
             (<[ "row_number" := row_number ]> ∅))) ∪ row)
  end.

(** [for idx, row in df.iterrows(): ... yield record]: the records yielded,
    and the exception that ended the loop, if one did *)
Fixpoint yield_records (file_hash : string) (file_metadata : record)
  (labels : list string) (rows : list (label * list scalar))
  : list record * option exn :=
  match rows with
  | [] => ([], None)
  | (idx, row) :: rest =>
      match enrich file_hash file_metadata idx (to_dict labels row) with
      | inl e => ([], Some e)
      | inr r =>
          let (more, err) := yield_records file_hash file_metadata labels rest in
          (r :: more, err)
      end
  end.

(** the body of the [try] up to the loop: the table to emit and the metadata
    of the file, or [None] where the body ends in [continue] *)
Definition prepare (csv_file : Path) (file_hash : string)
  : M (option (DataFrame * record)) :=
  loaded <- _load_csv_with_fallback csv_file ;;
  match loaded with
  | None =>
      print (MsgEmptyOrUnreadable (path_name csv_file)) ;;;
      ret None
  | Some df =>
      if empty df then
        print (MsgEmptyOrUnreadable (path_name csv_file)) ;;;
        ret None
      else
        df <- _transform_to_standard_format df (path_name csv_file) ;;
        st <- lift (path_stat csv_file) ;;
        now <- datetime_now ;;
        ret (Some (df, file_metadata_of csv_file (st_size st) file_hash now (len df)))
  end.

(** the body of the [try] for one file: the records it yields, and the
    exception that leaves it, if one does *)
Definition process_file (csv_file : Path) (file_hash : string) : Gen record :=
  fun w =>
    match prepare csv_file file_hash w with
    | (inl e, w1) => (([], Some e), w1)
    | (inr None, w1) => (([], None), w1)
    | (inr (Some (df, file_metadata)), w1) =>
        match yield_records file_hash file_metadata (columns df) (iterrows df) with
        | (records, Some e) => ((records, Some e), w1)
        | (records, None) =>
            ((records, None), say (MsgProcessed (len df) (path_name csv_file)) w1)
        end
    end.

(** [try: ... except Exception as e: print(...); continue]: what was
    yielded before the exception stays yielded *)
Definition try_process_file (csv_file : Path) (file_hash : string)
  : World -> list record * World :=
  fun w =>
    match process_file csv_file file_hash w with
    | ((records, None), w') => (records, w')
    | ((records, Some e), w') => (records, say (MsgError (path_name csv_file) e) w')
    end.

(** the [for csv_file in csv_files] loop *)
Fixpoint load_loop (processed_files : gset string) (csv_files : list Path)
  : Gen record :=
  fun w =>
    match csv_files with
    | [] => (([], None), w)
    | csv_file :: rest =>
        match _calculate_file_hash csv_file with
        | inl e => (([], Some e), w)
        | inr file_hash =>
            if bool_decide (file_hash ∈ processed_files) then
              load_loop processed_files rest
                (say (MsgSkipping (path_name csv_file)) w)
            else
              let (records, w1) :=
                try_process_file csv_file file_hash
                  (say (MsgProcessing (path_name csv_file)) w) in
              let '((more, err), w2) := load_loop processed_files rest w1 in
              ((records ++ more, err), w2)
        end
    end.

(** [csv_files] is what [landing_zone.glob("*.csv")] lists. *)
Definition load_temperature_files (csv_files : list Path) : Gen record :=
  load_loop _get_processed_files csv_files.

(** *** The resource [log_file_processing] *)

Definition log_entry (csv_file : Path) : M record :=
  st <- lift (path_stat csv_file) ;;
  file_hash <- lift (_calculate_file_hash csv_file) ;;
  st' <- lift (path_stat csv_file) ;;
  now <- datetime_now ;;
  ret (<[ "file_name" := SStr (path_name csv_file) ]>
      (<[ "file_path" := SStr (path_str csv_file) ]>
      (<[ "file_size_bytes" := SInt (st_size st) ]>
      (<[ "file_hash" := SStr file_hash ]>
      (<[ "file_modified_time" := STime (st_mtime st') ]>
      (<[ "processing_timestamp" := STime now ]>
      (<[ "status" := SStr "processed" ]> ∅))))))).

Fixpoint log_file_processing (csv_files : list Path) : Gen record :=
  fun w =>
    match csv_files with
    | [] => (([], None), w)
    | csv_file :: rest =>
        match log_entry csv_file w with
        | (inl e, w') => (([], Some e), w')
        | (inr entry, w') =>
            let '((more, err), w'') := log_file_processing rest w' in
            ((entry :: more, err), w'')
        end
    end.

(** *** [run_iot_temperature_pipeline] *)

(** What one run hands to the sink: the rows of the first resource, the
    entries of the second, and the exception that ended the run, if any. *)
Record LoadInfo : Type := mkLoadInfo {
  rows : list record;
  log : list record;
  failure : option exn
}.

Definition run_iot_temperature_pipeline (csv_files : list Path)
  : World -> LoadInfo * World :=
  fun w =>
    let '((rows, err), w1) := load_temperature_files csv_files w in
    match err with
    | Some e => (mkLoadInfo rows [] (Some e), w1)
    | None =>
        let '((log, err'), w2) := log_file_processing csv_files w1 in
        (mkLoadInfo rows log err', w2)
    end.

End Pipeline.

Arguments World {L}.
Arguments mkWorld {L} _ _ _.

(** ** Stand-ins for the libraries, to run the program on concrete inputs

    [Demo.libs] answers as the libraries do on the inputs of the examples
    below: [read_csv] and [to_datetime] are the tables of pandas' answers for
    the files and dates the examples use, the digest is the text of the bytes
    (distinct contents get distinct digests), the generator is a counter; no
    example prints a float or parses one from text.
    [Trace.libs] is the same with a generator that records each sample asked
    of it. No theorem about all libraries depends on either. *)

Module Demo.

Definition nl : string := String (ascii_of_nat 10) EmptyString.

Definition lines (ls : list string) : list Byte.byte :=
  String.list_byte_of_string (String.concat "" ((fun l => l +:+ nl) <$> ls)).

(** a file already in the standard format, one reading *)
Definition canonical_csv : list Byte.byte :=
  lines ["device_id,timestamp,temperature"; "d1,2024-01-01 00:00:00,20.5"].

Definition canonical_df : DataFrame :=
  mkDataFrame [LInt 0]
    [("device_id", [SStr "d1"]);
     ("timestamp", [SStr "2024-01-01 00:00:00"]);
     ("temperature", [SFloat 20.5])].

(** the vendor export of the scenario, one reading *)
Definition vendor_csv : list Byte.byte :=
  lines ["id,room_id/id,noted_date,temp,out/in";
         "__7,Room Admin,28-07-2018 12:00,29.5,In"].

Definition vendor_df : DataFrame :=
  mkDataFrame [LInt 0]
    [("id", [SStr "__7"]);
     ("room_id/id", [SStr "Room Admin"]);
     ("noted_date", [SStr "28-07-2018 12:00"]);
     ("temp", [SFloat 29.5]);
     ("out/in", [SStr "In"])].

(** a vendor export with three readings, the second with a date that is
    not one *)
Definition vendor3_csv : list Byte.byte :=
  lines ["id,room_id/id,noted_date,temp,out/in";
         "log_1_aa,Room Admin,28-07-2018 12:00,29.5,Out";
         "log_2_bb,Dining,not a date,31,Out";
         "log_3_cc,Room Admin,28-07-2018 12:05,30.5,In"].

Definition vendor3_df : DataFrame :=
  mkDataFrame [LInt 0; LInt 1; LInt 2]
    [("id", [SStr "log_1_aa"; SStr "log_2_bb"; SStr "log_3_cc"]);
     ("room_id/id", [SStr "Room Admin"; SStr "Dining"; SStr "Room Admin"]);
     ("noted_date",
       [SStr "28-07-2018 12:00"; SStr "not a date"; SStr "28-07-2018 12:05"]);
     ("temp", [SFloat 29.5; SFloat 31; SFloat 30.5]);
     ("out/in", [SStr "Out"; SStr "Out"; SStr "In"])].

(** some other layout, with slashes in two labels *)
Definition other_csv : list Byte.byte :=
  lines ["sensor/unit,room_id/id,value"; "c,Room Admin,7"].

Definition other_df : DataFrame :=
  mkDataFrame [LInt 0]
    [("sensor/unit", [SStr "c"]);
     ("room_id/id", [SStr "Room Admin"]);
     ("value", [SInt 7])].

(** a file in the standard format whose rows have one field more than the
    header: [read_csv] takes the first field of each row as its label *)
Definition labelled_csv : list Byte.byte :=
  lines ["device_id,timestamp,temperature";
         "r1,d1,2024-01-01 00:00:00,20.5";
         "r2,d2,2024-01-01 00:05:00,21.5"].

Definition labelled_df : DataFrame :=
  mkDataFrame [LStr "r1"; LStr "r2"]
    [("device_id", [SStr "d1"; SStr "d2"]);
     ("timestamp", [SStr "2024-01-01 00:00:00"; SStr "2024-01-01 00:05:00"]);
     ("temperature", [SFloat 20.5; SFloat 21.5])].

(** a vendor table with a room whose name holds [in] *)
Definition dining_df : DataFrame :=
  mkDataFrame [LInt 0; LInt 1; LInt 2]
    [("id", [SStr "log_1_aa"; SStr "log_2_bb"; SStr "log_3_cc"]);
     ("room_id/id", [SStr "Room Admin"; SStr "Dining"; SStr "Room Admin"]);
     ("noted_date",
       [SStr "28-07-2018 12:00"; SStr "28-07-2018 12:05"; SStr "28-07-2018 12:05"]);
     ("temp", [SFloat 29.5; SFloat 31; SFloat 30.5]);
     ("out/in", [SStr "Out"; SStr "Out"; SStr "In"])].

(** a vendor table whose [temp] holds a text that is no number, and one date
    that is none *)
Definition warm_df : DataFrame :=
  mkDataFrame [LInt 0; LInt 1]
    [("id", [SStr "log_1_aa"; SStr "log_2_bb"]);
     ("room_id/id", [SStr "Room Admin"; SStr "Dining"]);
     ("noted_date", [SStr "28-07-2018 12:00"; SStr "not a date"]);
     ("temp", [SStr "warm"; SFloat 31]);
     ("out/in", [SStr "Out"; SStr "Out"])].

(** a file in the standard format with a column named as a key of the
    metadata *)
Definition numbered_csv : list Byte.byte :=
  lines ["device_id,timestamp,temperature,row_number";
         "d1,2024-01-01 00:00:00,20.5,99"].

Definition numbered_df : DataFrame :=
  mkDataFrame [LInt 0]
    [("device_id", [SStr "d1"]);
     ("timestamp", [SStr "2024-01-01 00:00:00"]);
     ("temperature", [SFloat 20.5]);
     ("row_number", [SInt 99])].

Definition parsed : list (string * DataFrame) :=
  [(String.string_of_list_byte canonical_csv, canonical_df);
   (String.string_of_list_byte vendor_csv, vendor_df);
   (String.string_of_list_byte vendor3_csv, vendor3_df);
   (String.string_of_list_byte other_csv, other_df);
   (String.string_of_list_byte labelled_csv, labelled_df);
   (String.string_of_list_byte numbered_csv, numbered_df)].

Fixpoint assoc {A : Type} (k : string) (l : list (string * A)) : option A :=
  match l with
  | [] => None
  | (k', a) :: rest => if String.eqb k k' then Some a else assoc k rest
  end.

(** for [read_csv]: a file that cannot be opened raises what [open] raises, a
    file of no byte raises [EmptyDataError], whatever the encoding *)
Definition parse_file (p : Path) (encoding : string) : exn + DataFrame :=
  match path_open p with
  | inl e => inl e
  | inr [] => inl EmptyDataError
  | inr content =>
      match assoc (String.string_of_list_byte content) parsed with
      | Some df => inr df
      | None => inl ParserError
      end
  end.

(** nanoseconds since the epoch, as pandas stores a Timestamp *)
Definition dates : list (string * Z) :=
  [("28-07-2018 12:00", 1532779200000000000);
   ("28-07-2018 12:05", 1532779500000000000)].

Definition parse_date (format : string) (x : scalar) : option Z :=
  match x with
  | SStr s => if String.eqb format "%d-%m-%Y %H:%M" then assoc s dates else None
  | _ => None
  end.

Definition digest (data : list Byte.byte) : string :=
  String.string_of_list_byte data.

(** the generator: a counter, each sample a fixed pattern of it *)
Definition wiggle (g : nat) : float :=
  (Float.of_Z (Z.of_nat (g mod 5)) - 2) / 4.

Definition normal (loc scale : float) (g : nat) : float * nat :=
  ((loc + scale * wiggle g)%float, S g).

Definition uniform (low high : float) (g : nat) : float * nat :=
  ((low + (high - low) * ((wiggle g + 0.5) / 2))%float, S g).

Definition choice (k : nat) (g : nat) : nat * nat := ((g mod k)%nat, S g).

Definition libs : Libs := {|
  float_repr := fun f => if PrimFloat.is_nan f then "nan" else "?";
  float_of_str := fun _ => None;
  timestamp_repr := fun t => pretty t;
  sha256_hexdigest := digest;
  read_csv := parse_file;
  to_datetime := parse_date;
  RandomState := nat;
  random_seed := fun s => Z.to_nat s;
  random_normal := normal;
  random_uniform := uniform;
  random_choice := choice;
  clock := fun k => 1700000000 + Z.of_nat k
|}.

Definition w0 : World (L := libs) := mkWorld (L := libs) 7%nat [] 0.

(** paths of a landing zone *)
Definition file (name : string) (content : list Byte.byte) : Path :=
  mkPath name ("landing_zone/" +:+ name) (inr content)
    (inr (mkStat (Z.of_nat (length content)) 1690000000)).

Definition canonical_file : Path := file "a.csv" canonical_csv.
Definition vendor_file : Path := file "kaggle.csv" vendor_csv.
Definition vendor3_file : Path := file "kaggle3.csv" vendor3_csv.
Definition other_file : Path := file "other.csv" other_csv.
Definition empty_file : Path := file "empty.csv" [].
Definition labelled_file : Path := file "labelled.csv" labelled_csv.
Definition numbered_file : Path := file "numbered.csv" numbered_csv.

(** a name in the listing that no longer leads to a file: it can be
    neither opened nor stat'ed *)
Definition dangling : Path :=
  mkPath "gone.csv" "landing_zone/gone.csv" (inl FileNotFoundError)
    (inl FileNotFoundError).

(** a file that exists and cannot be read *)
Definition unreadable : Path :=
  mkPath "locked.csv" "landing_zone/locked.csv" (inl PermissionError)
    (inr (mkStat 120 1690000000)).

End Demo.

Module Trace.

Inductive sample : Type :=
| Seed (s : Z)
| Normal (loc scale : float)
| Uniform (low high : float)
| Choice (k : nat).

Definition libs : Libs := {|
  float_repr := float_repr (Libs := Demo.libs);
  float_of_str := float_of_str (Libs := Demo.libs);
  timestamp_repr := timestamp_repr (Libs := Demo.libs);
  sha256_hexdigest := Demo.digest;
  read_csv := Demo.parse_file;
  to_datetime := Demo.parse_date;
  RandomState := list sample;
  random_seed := fun s => [Seed s];
  random_normal := fun loc scale g => (loc, g ++ [Normal loc scale]);
  random_uniform := fun low high g => (low, g ++ [Uniform low high]);
  random_choice := fun k g => (0%nat, g ++ [Choice k]);
  clock := fun k => Z.of_nat k
|}.

End Trace.

(** ** The design the transformation is checked against

    The samples the vendor transformation takes, in the order the design
    fixes (humidity noise, battery base, battery noise, signal noise, then
    the two catalogue picks), and the table it builds from them before any
    row is dropped. *)

Section Design.

Context `{L : Libs}.

Record Draws : Type := mkDraws {
  humidity_noise : list float;
  base_battery : list float;
  battery_noise : list float;
  signal_noise : list float;
  device_type_picks : list nat;
  firmware_picks : list nat
}.

Definition synthetic_draws (n : nat) (g0 : RandomState) : Draws * RandomState :=
  let (hn, g1) := samples (random_normal 0 8) n g0 in
  let (bb, g2) := samples (random_uniform 70 100) n g1 in
  let (bn, g3) := samples (random_normal 0 5) n g2 in
  let (sn, g4) := samples (random_normal 0 10) n g3 in
  let (dt, g5) := samples (random_choice 5) n g4 in
  let (fw, g6) := samples (random_choice 5) n g5 in
  (mkDraws hn bb bn sn dt fw, g6).

(** row [p] of the table, from the cells of the source row and the
    [p]-th sample of each kind *)
Definition vendor_table (index : list label) (ids noted_date : list scalar)
  (temperature : list float) (location : list string) (d : Draws) : DataFrame :=
  mkDataFrame index
    [("device_id", SStr <$> (device_id_of <$> ids));
     ("timestamp", timestamp_of <$> noted_date);
     ("temperature", SFloat <$> temperature);
     ("location", SStr <$> location);
     ("humidity",
       SFloat <$> zip_with (fun bt noise => humidity_of bt.1 bt.2 noise)
                    (zip (base_humidity_of <$> location) temperature)
                    (humidity_noise d));
     ("battery_level",
       SFloat <$> zip_with (fun bi noise => battery_of bi.1 bi.2 noise)
                    (zip (base_battery d) (seq 0 (length index)))
                    (battery_noise d));
     ("signal_strength",
       SFloat <$> zip_with signal_of (base_signal_of <$> location) (signal_noise d));
     ("device_type",
       SStr <$> ((fun i => nth i device_types EmptyString) <$> device_type_picks d));
     ("firmware_version",
       SStr <$> ((fun i => nth i firmware_versions EmptyString) <$> firmware_picks d))].

(** the rows of [df] whose [noted_date] does not parse *)
Definition unparseable (noted_date : list scalar) : nat :=
  length (filter (fun x => isna (timestamp_of x) = true) noted_date).

(** the header the generic treatment gives a column *)
Definition generic_label (c : string) : string :=
  if String.eqb c "room_id/id" then "room_id_id"
  else if String.eqb c "out/in" then "out_in"
  else c.

(** the room identifier as it enters the location *)
Definition cleaned_room (room : scalar) : string :=
  Text.replace "Admin" "Office" (Text.replace "Room " "" (str room)).

(** What the vendor transformation needs of its input: the three columns
    it reads, a [temp] column that converts, and a location for each row. *)
Definition vendor_inputs (df : DataFrame) (ids noted : list scalar)
  (temperature : list float) (location : list string) : Prop :=
  getitem df "id" = inr ids /\
  getitem df "noted_date" = inr noted /\
  (exists temp, getitem df "temp" = inr temp /\ astype_float temp = inr temperature) /\
  apply_location df = inr location.

(** the table the transformation returns: [vendor_table] without the rows
    that have no timestamp *)
Definition vendor_result (df : DataFrame) (ids noted : list scalar)
  (temperature : list float) (location : list string) : DataFrame :=
  let mask := notna <$> (timestamp_of <$> noted) in
  let full := vendor_table (df_index df) ids noted temperature location
                (synthetic_draws (len df) (random_seed 42)).1 in
  mkDataFrame (select mask (df_index df))
    ((fun kv => (kv.1, select mask kv.2)) <$> df_data full).

(** the table the generic treatment returns *)
Definition generic_table (df : DataFrame) : DataFrame :=
  mkDataFrame (df_index df) ((fun kv => (generic_label kv.1, kv.2)) <$> df_data df).

(** the keys [record.update] writes into every emitted record *)
Definition reserved_keys : list string :=
  ["file_record_id"; "row_number"; "file_name"; "file_path"; "file_size_bytes";
   "file_hash"; "ingestion_timestamp"; "total_records"].

(** the labels of the table the vendor transformation returns *)
Definition vendor_labels : list string :=
  ["device_id"; "timestamp"; "temperature"; "location"; "humidity";
   "battery_level"; "signal_strength"; "device_type"; "firmware_version"].

(** a date in the vendor's format, day-month-year hour:minute *)
Definition parses (x : scalar) : bool :=
  match to_datetime "%d-%m-%Y %H:%M" x with
  | Some _ => true
  | None => false
  end.

(** the number of dates the vendor's format does not read *)
Definition unparsed (noted_date : list scalar) : nat :=
  length (filter (fun x => parses x = false) noted_date).

(** of a column, the cells of the rows whose date parses, in order *)
Definition dated {A : Type} (noted_date : list scalar) (col : list A) : list A :=
  (filter (fun cx : A * scalar => parses cx.2 = true) (zip col noted_date)).*1.

(** the location of a row, from its room identifier and its qualifier *)
Definition located (room qualifier : scalar) : string :=
  cleaned_room room +:+ "_" +:+ Text.lower (str qualifier).

(** the humidity and the signal strength of a row, with the bases chosen
    by the test for [in] on the whole location *)
Definition humidity_by_location (location : string) (temperature noise : float)
  : float :=
  humidity_of (if Text.contains_ci "in" location then 45 else 65) temperature noise.

Definition signal_by_location (location : string) (noise : float) : float :=
  signal_of (if Text.contains_ci "in" location then -55 else -45) noise.

(** a label [idx + 1] is defined on *)
Definition numeric (idx : label) : bool :=
  match idx with
  | LInt _ | LFloat _ | LBool _ => true
  | LStr _ | LTuple _ => false
  end.

(** what a record says of the row labelled [idx] of a file with hash
    [file_hash] *)
Definition identified (file_hash : string) (idx : label) (r : record) : Prop :=
  match idx with
  | LInt z =>
      r !! "file_record_id" = Some (SStr (file_hash +:+ "_" +:+ pretty z)) /\
      r !! "row_number" = Some (SInt (z + 1))
  | LFloat f =>
      r !! "file_record_id" = Some (SStr (file_hash +:+ "_" +:+ float_repr f)) /\
      r !! "row_number" = Some (SFloat (f + 1)%float)
  | LBool b =>
      r !! "file_record_id"
      = Some (SStr (file_hash +:+ "_" +:+ (if b then "True" else "False"))) /\
      r !! "row_number" = Some (SInt (if b then 2 else 1))
  | LStr _ | LTuple _ => False
  end.

End Design.

(** * Properties *)

(** ** Text *)

Module TextFacts.

Import Text.

Lemma app_cons a s t : String a s +:+ t = String a (s +:+ t).
Proof. reflexivity. Qed.

Lemma app_assoc s t u : (s +:+ t) +:+ u = s +:+ (t +:+ u).
Proof.
  induction s as [|a s IH]; [reflexivity|].
  rewrite !app_cons, IH. reflexivity.
Qed.

Lemma split_nonempty sep s : split sep s <> [].
Proof.
  destruct s as [|c r]; simpl; [discriminate|].
  destruct (Ascii.eqb c sep); [discriminate|].
  destruct (split sep r); discriminate.
Qed.

Lemma join_cons sep x l :
  l <> [] -> join sep (x :: l) = x +:+ String sep (join sep l).
Proof. destruct l; [congruence|reflexivity]. Qed.

(** joining the segments of a split gives the string back *)
Lemma split_join sep s : join sep (split sep s) = s.
Proof.
  induction s as [|c r IH]; simpl; [reflexivity|].
  pose proof (split_nonempty sep r) as Hne.
  destruct (Ascii.eqb c sep) eqn:E.
  - apply Ascii.eqb_eq in E. subst c.
    rewrite join_cons by assumption. rewrite IH. reflexivity.
  - destruct (split sep r) as [|seg segs] eqn:Hs; [congruence|].
    destruct segs as [|seg' segs'].
    + simpl in *. congruence.
    + rewrite join_cons by discriminate.
      rewrite join_cons in IH by discriminate.
      rewrite <- IH. reflexivity.
Qed.

(** no segment of a split holds the separator *)
Lemma split_no_sep sep s :
  Forall (fun seg => has_char sep seg = false) (split sep s).
Proof.
  induction s as [|c r IH]; simpl.
  - constructor; [reflexivity|constructor].
  - destruct (Ascii.eqb c sep) eqn:E.
    + constructor; [reflexivity|exact IH].
    + destruct (split sep r) as [|seg segs].
      * repeat constructor. simpl. rewrite E. reflexivity.
      * inversion IH; subst.
        constructor; [simpl; rewrite E; assumption|assumption].
Qed.

Lemma join_last sep l :
  l <> [] ->
  join sep l = last_segment l \/
  exists r, join sep l = r +:+ String sep (last_segment l).
Proof.
  unfold last_segment.
  induction l as [|x l IH]; [congruence|]. intros _.
  destruct l as [|y l]; [left; reflexivity|].
  right. rewrite join_cons by discriminate.
  change (List.last (x :: y :: l) EmptyString)
    with (List.last (y :: l) EmptyString).
  destruct IH as [IH|[r IH]]; [discriminate| |]; rewrite IH.
  - exists x. reflexivity.
  - exists (x +:+ String sep r). rewrite app_assoc. reflexivity.
Qed.

Lemma Forall_last {A : Type} (P : A -> Prop) (l : list A) (d : A) :
  Forall P l -> l <> [] -> P (List.last l d).
Proof.
  induction 1 as [|x l Hx Hl IH]; [congruence|]. intros _.
  destruct l as [|y l]; [exact Hx|]. apply IH. discriminate.
Qed.

(** [s.split(sep)[-1]] is what follows the last separator of [s], or all
    of [s] when it has none. *)
Lemma last_segment_spec sep s :
  let seg := last_segment (split sep s) in
  has_char sep seg = false /\
  (s = seg \/ exists r, s = r +:+ String sep seg).
Proof.
  intros seg. split.
  - subst seg. unfold last_segment.
    apply (Forall_last (fun seg => has_char sep seg = false));
      [apply split_no_sep|apply split_nonempty].
  - subst seg.
    pose proof (join_last sep (split sep s) (split_nonempty sep s)) as H.
    rewrite split_join in H. exact H.
Qed.

(** [s[:n]] is the prefix of [s] of [min n (len s)] characters *)
Lemma take_prefix n s :
  exists rest, s = take n s +:+ rest /\
               String.length (take n s) = Nat.min n (String.length s).
Proof.
  revert s; induction n as [|n IH]; intros s.
  - exists s. destruct s; split; reflexivity.
  - destruct s as [|c r]; [exists EmptyString; split; reflexivity|].
    destruct (IH r) as [rest [H1 H2]]. exists rest. simpl.
    split; [rewrite app_cons; f_equal; exact H1|f_equal; exact H2].
Qed.

Lemma prefix_ci_app pat s t : prefix_ci pat s = true -> prefix_ci pat (s +:+ t) = true.
Proof.
  revert s; induction pat as [|a pat IH]; intros s H; [reflexivity|].
  destruct s as [|b s]; [discriminate|].
  rewrite app_cons. simpl in *.
  apply andb_prop in H as [H1 H2]. rewrite H1, (IH _ H2). reflexivity.
Qed.

(** a match inside [s] is a match inside [s] followed by anything *)
Lemma contains_ci_app pat s t :
  contains_ci pat s = true -> contains_ci pat (s +:+ t) = true.
Proof.
  induction s as [|b s IH]; intros H.
  - simpl in H. rewrite orb_false_r in H.
    destruct pat; [|discriminate]. destruct t; reflexivity.
  - rewrite app_cons.
    change (contains_ci pat (String b s))
      with (prefix_ci pat (String b s) || contains_ci pat s) in H.
    change (contains_ci pat (String b (s +:+ t)))
      with (prefix_ci pat (String b (s +:+ t)) || contains_ci pat (s +:+ t)).
    apply orb_prop in H as [H|H].
    + rewrite <- app_cons, (prefix_ci_app _ _ t H). reflexivity.
    + rewrite (IH H). apply orb_true_r.
Qed.

End TextFacts.

(** ** Lists and tables *)

Section ListFacts.

Context {A : Type}.

Lemma select_length (mask : list bool) (l : list A) :
  length mask = length l ->
  length (select mask l) = length (filter (fun b => b = true) mask).
Proof.
  revert l; induction mask as [|b mask IH]; intros l H; [reflexivity|].
  destruct l as [|x l]; [discriminate|]. injection H as H.
  destruct b; cbn [select].
  - rewrite filter_cons_True by reflexivity. cbn [length]. f_equal. auto.
  - rewrite filter_cons_False by discriminate. auto.
Qed.

Lemma select_all (mask : list bool) (l : list A) :
  length mask = length l -> Forall (fun b => b = true) mask -> select mask l = l.
Proof.
  revert l; induction mask as [|b mask IH]; intros l H Hall.
  - destruct l; [reflexivity|discriminate].
  - destruct l as [|x l]; [discriminate|]. injection H as H.
    inversion Hall; subst. simpl. f_equal. auto.
Qed.

Lemma nth_seq_self (l : list A) (d : A) :
  (fun p => nth p l d) <$> seq 0 (length l) = l.
Proof.
  induction l as [|x l IH]; [reflexivity|].
  simpl. f_equal. rewrite <- seq_shift, <- list_fmap_compose.
  exact IH.
Qed.

End ListFacts.

Lemma cells_length n vals : length (cells n vals) = n.
Proof. unfold cells. rewrite length_fmap. apply length_seq. Qed.

(** a column that has all its cells is read as it is *)
Lemma cells_self n vals : length vals = n -> cells n vals = vals.
Proof. intros <-. apply nth_seq_self. Qed.

Lemma getitem_length df c vals : getitem df c = inr vals -> length vals = len df.
Proof.
  unfold getitem. destruct (find_column c (df_data df)); [|discriminate].
  intros [= <-]. apply cells_length.
Qed.

Lemma values_length df : length (values df) = len df.
Proof. unfold values. rewrite length_fmap. apply length_seq. Qed.

Section Properties.

Context `{L : Libs}.

Lemma samples_length {A : Type} (draw : RandomState -> A * RandomState) n g :
  length (samples draw n g).1 = n.
Proof.
  revert g; induction n as [|n IH]; intros g; [reflexivity|].
  simpl. destruct (draw g) as [x g']. specialize (IH g').
  destruct (samples draw n g') as [xs g'']. simpl in *. f_equal. exact IH.
Qed.

Lemma astype_float_length vals fs :
  astype_float vals = inr fs -> length fs = length vals.
Proof.
  revert fs; induction vals as [|x vals IH]; intros fs; simpl.
  - intros [= <-]. reflexivity.
  - destruct (to_float x); [discriminate|].
    destruct (astype_float vals); [discriminate|].
    intros [= <-]. simpl. f_equal. auto.
Qed.

Lemma map_rows_length {A : Type} (f : list scalar -> exn + A) rows l :
  map_rows f rows = inr l -> length l = length rows.
Proof.
  revert l; induction rows as [|row rows IH]; intros l; simpl.
  - intros [= <-]. reflexivity.
  - destruct (f row); [discriminate|].
    destruct (map_rows f rows); [discriminate|].
    intros [= <-]. simpl. f_equal. auto.
Qed.

Lemma apply_location_length df location :
  apply_location df = inr location -> length location = len df.
Proof.
  unfold apply_location. destruct (len df) eqn:E; [discriminate|].
  intros H. apply map_rows_length in H. rewrite H, values_length. exact E.
Qed.

(** *** The vendor transformation, step by step

    When the columns are there, [temp] converts and the table has a row,
    the transformation returns: it reseeds the generator, takes the
    samples of [synthetic_draws], builds [vendor_table] and drops from it
    the rows without a timestamp. *)
Lemma kaggle_run df w ids noted temp temperature location :
  getitem df "id" = inr ids ->
  getitem df "noted_date" = inr noted ->
  getitem df "temp" = inr temp ->
  astype_float temp = inr temperature ->
  apply_location df = inr location ->
  let d := synthetic_draws (len df) (random_seed 42) in
  let full := vendor_table (df_index df) ids noted temperature location d.1 in
  let mask := notna <$> cells (len df) (timestamp_of <$> noted) in
  let kept :=
    mkDataFrame (select mask (df_index df))
      ((fun kv => (kv.1, select mask (cells (len df) kv.2))) <$> df_data full) in
  _transform_kaggle_format df w =
    (inr kept,
     mkWorld d.2
       (w_out w ++ (if bool_decide (len kept = len df) then []
                    else [MsgRemoved (len df - len kept)]))
       (w_clock w)).
Proof.
  intros Hid Hnoted Htemp Hfloat Hloc d full mask kept.
  unfold _transform_kaggle_format.
  cbv beta iota delta [bind lift ret raise]. rewrite Hid.
  cbv beta iota. rewrite Hnoted.
  cbv beta iota. rewrite Htemp.
  cbv beta iota. rewrite Hfloat.
  cbv beta iota. rewrite Hloc.
  cbv beta iota delta [np_random_seed np_random_normal np_random_uniform
    np_random_choice with_rng print say w_rng w_out w_clock].
  subst d. unfold synthetic_draws in *.
  change (length device_types) with 5%nat.
  change (length firmware_versions) with 5%nat.
  destruct (samples (random_normal 0 8) (len df) (random_seed 42)) as [hn g1].
  destruct (samples (random_uniform 70 100) (len df) g1) as [bb g2].
  destruct (samples (random_normal 0 5) (len df) g2) as [bn g3].
  destruct (samples (random_normal 0 10) (len df) g3) as [sn g4].
  destruct (samples (random_choice 5) (len df) g4) as [dt g5].
  destruct (samples (random_choice 5) (len df) g5) as [fw g6].
  cbn [fst snd] in *.
  unfold dropna, getitem. cbn [df_data find_column String.eqb Ascii.eqb Bool.eqb].
  subst kept mask full. unfold vendor_table.
  cbn [df_index df_data humidity_noise base_battery battery_noise signal_noise
       device_type_picks firmware_picks].
  case_bool_decide as Hlen; unfold len in Hlen; cbn [df_index] in Hlen;
    case_bool_decide as Hlen'; unfold len in Hlen'; cbn [df_index] in Hlen';
    try congruence; rewrite ?app_nil_r; reflexivity.
Qed.

Lemma synthetic_draws_lengths n g :
  let d := (synthetic_draws n g).1 in
  length (humidity_noise d) = n /\ length (base_battery d) = n /\
  length (battery_noise d) = n /\ length (signal_noise d) = n /\
  length (device_type_picks d) = n /\ length (firmware_picks d) = n.
Proof.
  unfold synthetic_draws.
  pose proof (samples_length (random_normal 0 8) n g) as H1.
  destruct (samples (random_normal 0 8) n g) as [hn g1].
  pose proof (samples_length (random_uniform 70 100) n g1) as H2.
  destruct (samples (random_uniform 70 100) n g1) as [bb g2].
  pose proof (samples_length (random_normal 0 5) n g2) as H3.
  destruct (samples (random_normal 0 5) n g2) as [bn g3].
  pose proof (samples_length (random_normal 0 10) n g3) as H4.
  destruct (samples (random_normal 0 10) n g3) as [sn g4].
  pose proof (samples_length (random_choice 5) n g4) as H5.
  destruct (samples (random_choice 5) n g4) as [dt g5].
  pose proof (samples_length (random_choice 5) n g5) as H6.
  destruct (samples (random_choice 5) n g5) as [fw g6].
  simpl in *. repeat split; assumption.
Qed.

(** every column of the table has one cell per row *)
Lemma vendor_table_columns index ids noted temperature location n g :
  length index = n -> length ids = n -> length noted = n ->
  length temperature = n -> length location = n ->
  Forall (fun kv => length kv.2 = n)
    (df_data (vendor_table index ids noted temperature location
                (synthetic_draws n g).1)).
Proof.
  intros Hi Hids Hnoted Htemp Hloc.
  destruct (synthetic_draws_lengths n g) as (H1 & H2 & H3 & H4 & H5 & H6).
  unfold vendor_table. cbn [df_data].
  repeat constructor; cbn [snd];
    rewrite ?length_fmap, ?length_zip_with, ?length_zip, ?length_fmap, ?length_seq;
    lia.
Qed.

Lemma count_notna (l : list scalar) :
  (length (filter (fun b => b = true) (notna <$> l))
   + length (filter (fun x => isna x = true) l))%nat = length l.
Proof.
  induction l as [|x l IH]; [reflexivity|].
  rewrite fmap_cons. unfold notna at 1.
  destruct (isna x) eqn:E; cbn [negb].
  - rewrite filter_cons_False by discriminate.
    rewrite (filter_cons_True (fun x => isna x = true)) by exact E.
    cbn [length]. lia.
  - rewrite filter_cons_True by reflexivity.
    rewrite (filter_cons_False (fun x => isna x = true)) by congruence.
    cbn [length]. lia.
Qed.

Lemma unparseable_count (noted : list scalar) :
  (length (filter (fun b => b = true) (notna <$> (timestamp_of <$> noted)))
   + unparseable noted)%nat = length noted.
Proof.
  pose proof (count_notna (timestamp_of <$> noted)) as H.
  rewrite length_fmap in H.
  assert (E : length (filter (fun x => isna x = true) (timestamp_of <$> noted))
              = unparseable noted).
  { clear H. unfold unparseable. induction noted as [|x l IH]; [reflexivity|].
    rewrite fmap_cons.
    destruct (isna (timestamp_of x)) eqn:E.
    - rewrite !filter_cons_True by exact E. cbn [length]. f_equal. exact IH.
    - rewrite !filter_cons_False by congruence. exact IH. }
  lia.
Qed.

Lemma vendor_result_len df ids noted temperature location :
  length noted = len df ->
  len (vendor_result df ids noted temperature location)
  = (len df - unparseable noted)%nat.
Proof.
  intros Hn. unfold vendor_result, len at 1. cbn [df_index].
  rewrite select_length by (rewrite !length_fmap; exact Hn).
  pose proof (unparseable_count noted). unfold len in *. lia.
Qed.

Lemma kaggle_result df w ids noted temperature location :
  vendor_inputs df ids noted temperature location ->
  let out := vendor_result df ids noted temperature location in
  _transform_kaggle_format df w =
    (inr out,
     mkWorld (synthetic_draws (len df) (random_seed 42)).2
       (w_out w ++ (if bool_decide (unparseable noted = 0%nat) then []
                    else [MsgRemoved (unparseable noted)]))
       (w_clock w)).
Proof.
  intros (Hid & Hnoted & (temp & Htemp & Hfloat) & Hloc) out.
  rewrite (kaggle_run df w ids noted temp temperature location) by assumption.
  pose proof (getitem_length _ _ _ Hid) as Lid.
  pose proof (getitem_length _ _ _ Hnoted) as Lnoted.
  pose proof (getitem_length _ _ _ Htemp) as Ltemp.
  pose proof (astype_float_length _ _ Hfloat) as Lfloat.
  pose proof (apply_location_length _ _ Hloc) as Lloc.
  rewrite (cells_self (len df) (timestamp_of <$> noted))
    by (rewrite length_fmap; exact Lnoted).
  assert (Hdata :
    (fun kv : string * list scalar =>
       (kv.1, select (notna <$> (timestamp_of <$> noted)) (cells (len df) kv.2)))
      <$> df_data (vendor_table (df_index df) ids noted temperature location
                     (synthetic_draws (len df) (random_seed 42)).1)
    = df_data out).
  { subst out. unfold vendor_result. cbn [df_data].
    apply Forall_fmap_ext_1.
    eapply Forall_impl;
      [apply (vendor_table_columns (df_index df) ids noted temperature location
                (len df) (random_seed 42)); unfold len in *; congruence|].
    intros [c vals] Hlen. cbn [fst snd] in *. rewrite cells_self by exact Hlen.
    reflexivity. }
  rewrite Hdata.
  change (mkDataFrame
            (select (notna <$> (timestamp_of <$> noted)) (df_index df))
            (df_data out)) with out.
  pose proof (vendor_result_len df ids noted temperature location Lnoted) as Hlen.
  fold out in Hlen. rewrite Hlen.
  assert (Hk : (unparseable noted <= len df)%nat).
  { pose proof (unparseable_count noted). lia. }
  f_equal. f_equal. f_equal.
  repeat case_bool_decide; try reflexivity; try lia.
  f_equal. f_equal. lia.
Qed.

(** Either the input has what the transformation needs, or the
    transformation raises before it touches the generator or prints. *)
Lemma kaggle_cases df :
  (exists ids noted temperature location,
      vendor_inputs df ids noted temperature location) \/
  (exists e, forall w, _transform_kaggle_format df w = (inl e, w)).
Proof.
  destruct (getitem df "id") as [e|ids] eqn:Hid.
  { right. exists e. intros w. unfold _transform_kaggle_format.
    cbv beta iota delta [bind lift ret raise]. rewrite Hid. reflexivity. }
  destruct (getitem df "noted_date") as [e|noted] eqn:Hnoted.
  { right. exists e. intros w. unfold _transform_kaggle_format.
    cbv beta iota delta [bind lift ret raise]. rewrite Hid.
    cbv beta iota. rewrite Hnoted. reflexivity. }
  destruct (getitem df "temp") as [e|temp] eqn:Htemp.
  { right. exists e. intros w. unfold _transform_kaggle_format.
    cbv beta iota delta [bind lift ret raise]. rewrite Hid.
    cbv beta iota. rewrite Hnoted. cbv beta iota. rewrite Htemp. reflexivity. }
  destruct (astype_float temp) as [e|temperature] eqn:Hfloat.
  { right. exists e. intros w. unfold _transform_kaggle_format.
    cbv beta iota delta [bind lift ret raise]. rewrite Hid.
    cbv beta iota. rewrite Hnoted. cbv beta iota. rewrite Htemp.
    cbv beta iota. rewrite Hfloat. reflexivity. }
  destruct (apply_location df) as [e|location] eqn:Hloc.
  { right. exists e. intros w. unfold _transform_kaggle_format.
    cbv beta iota delta [bind lift ret raise]. rewrite Hid.
    cbv beta iota. rewrite Hnoted. cbv beta iota. rewrite Htemp.
    cbv beta iota. rewrite Hfloat. cbv beta iota. rewrite Hloc. reflexivity. }
  left. exists ids, noted, temperature, location.
  repeat split; try assumption. exists temp. split; assumption.
Qed.

(** *** Columns and rows that are there *)

Lemma find_column_elem c data :
  c ∈ data.*1 -> exists vals, find_column c data = Some vals.
Proof.
  induction data as [|[k vals] data IH]; intros H.
  - inversion H.
  - cbn [find_column]. destruct (String.eqb k c) eqn:E; [eauto|].
    apply IH. rewrite fmap_cons in H. apply elem_of_cons in H as [H|H]; [|exact H].
    cbn in H. subst k. rewrite String.eqb_refl in E. discriminate.
Qed.

Lemma getitem_elem df c :
  c ∈ columns df -> exists vals, getitem df c = inr vals.
Proof.
  intros H. unfold getitem.
  destruct (find_column_elem c (df_data df) H) as [vals ->]. eauto.
Qed.

Lemma issubset_elem cols df c :
  issubset cols df = true -> c ∈ cols -> c ∈ columns df.
Proof.
  unfold issubset. intros H Hc. apply bool_decide_eq_true in H.
  apply H in Hc. apply elem_of_list_to_set in Hc. exact Hc.
Qed.

Lemma row_get_elem labels row c :
  c ∈ labels -> length labels = length row ->
  exists x, row_get labels row c = inr x.
Proof.
  revert row; induction labels as [|k labels IH]; intros row H Hlen.
  - inversion H.
  - destruct row as [|x row]; [discriminate|]. injection Hlen as Hlen.
    cbn [row_get]. destruct (String.eqb k c) eqn:E; [eauto|].
    apply IH; [|exact Hlen].
    apply elem_of_cons in H as [H|H]; [|exact H].
    subst k. rewrite String.eqb_refl in E. discriminate.
Qed.

Lemma values_row_length df row :
  row ∈ values df -> length row = length (columns df).
Proof.
  unfold values, columns. intros H.
  apply list_elem_of_fmap in H as (p & -> & _).
  rewrite !length_fmap. reflexivity.
Qed.

Lemma map_rows_total {A : Type} (f : list scalar -> exn + A) rows :
  (forall row, row ∈ rows -> exists a, f row = inr a) ->
  exists l, map_rows f rows = inr l.
Proof.
  induction rows as [|row rows IH]; intros H; cbn [map_rows]; [eauto|].
  destruct (H row) as [a ->]; [left|].
  destruct IH as [l ->]; [intros r Hr; apply H; right; exact Hr|]. eauto.
Qed.

(** A table with the vendor's five columns, at least one row and a [temp]
    column that converts has what the transformation needs. *)
Lemma vendor_inputs_exist df :
  issubset kaggle_columns df = true ->
  len df <> 0%nat ->
  (exists temp temperature,
      getitem df "temp" = inr temp /\ astype_float temp = inr temperature) ->
  exists ids noted temperature location,
    vendor_inputs df ids noted temperature location.
Proof.
  intros Hsub Hlen (temp & temperature & Htemp & Hfloat).
  assert (Hin : forall c, c ∈ kaggle_columns -> c ∈ columns df)
    by (intros c; apply issubset_elem; exact Hsub).
  destruct (getitem_elem df "id") as [ids Hid];
    [apply Hin; unfold kaggle_columns; set_solver|].
  destruct (getitem_elem df "noted_date") as [noted Hnoted];
    [apply Hin; unfold kaggle_columns; set_solver|].
  assert (exists location, apply_location df = inr location) as [location Hloc].
  { unfold apply_location. destruct (len df); [congruence|].
    apply map_rows_total. intros row Hrow.
    apply values_row_length in Hrow. unfold location_of.
    destruct (row_get_elem (columns df) row "room_id/id") as [room ->];
      [apply Hin; unfold kaggle_columns; set_solver|congruence|].
    destruct (row_get_elem (columns df) row "out/in") as [q ->];
      [apply Hin; unfold kaggle_columns; set_solver|congruence|].
    eauto. }
  exists ids, noted, temperature, location.
  repeat split; try assumption. exists temp. split; assumption.
Qed.

(** *** The program's mask and the dates the format reads *)

Lemma notna_timestamp_of x : notna (timestamp_of x) = parses x.
Proof.
  unfold timestamp_of, parses.
  destruct (to_datetime "%d-%m-%Y %H:%M" x); reflexivity.
Qed.

(** [dropna] keeps, of every column, the cells of the rows whose date the
    format reads *)
Lemma select_dated {A : Type} (noted : list scalar) (col : list A) :
  select (notna <$> (timestamp_of <$> noted)) col = dated noted col.
Proof.
  unfold dated. revert col. induction noted as [|x noted IH]; intros col.
  - destruct col; reflexivity.
  - destruct col as [|c col].
    + rewrite !fmap_cons. destruct (notna (timestamp_of x)); reflexivity.
    + rewrite !fmap_cons, notna_timestamp_of. cbn [zip zip_with].
      destruct (parses x) eqn:E; cbn [select].
      * rewrite filter_cons_True by exact E. rewrite fmap_cons. cbn [fst].
        f_equal. apply IH.
      * rewrite filter_cons_False by (cbn [snd]; congruence). apply IH.
Qed.

Lemma unparseable_unparsed noted : unparseable noted = unparsed noted.
Proof.
  unfold unparseable, unparsed.
  induction noted as [|x noted IH]; [reflexivity|].
  assert (E : isna (timestamp_of x) = negb (parses x)).
  { pose proof (notna_timestamp_of x) as H. unfold notna in H.
    destruct (isna (timestamp_of x)), (parses x); cbn in *; congruence. }
  destruct (parses x) eqn:Ep.
  - rewrite filter_cons_False by (rewrite E; discriminate).
    rewrite (filter_cons_False (fun x => parses x = false)) by congruence.
    exact IH.
  - rewrite filter_cons_True by (rewrite E; reflexivity).
    rewrite (filter_cons_True (fun x => parses x = false)) by exact Ep.
    cbn [length]. f_equal. exact IH.
Qed.

(** the timestamps kept are the readings of the dates the format reads *)
Lemma select_timestamps_parsed (noted : list scalar) :
  select (notna <$> (timestamp_of <$> noted)) (timestamp_of <$> noted)
  = STime <$> omap (to_datetime "%d-%m-%Y %H:%M") noted.
Proof.
  induction noted as [|x noted IH]; [reflexivity|].
  rewrite !fmap_cons. cbn [omap list_omap]. unfold timestamp_of at 1 3.
  destruct (to_datetime "%d-%m-%Y %H:%M" x) as [t|];
    cbn [notna isna negb select].
  - rewrite fmap_cons. f_equal. exact IH.
  - exact IH.
Qed.

Lemma map_rows_Forall2 {A : Type} (f : list scalar -> exn + A) rows l :
  map_rows f rows = inr l -> Forall2 (fun row a => f row = inr a) rows l.
Proof.
  revert l; induction rows as [|row rows IH]; intros l; cbn [map_rows].
  - intros [= <-]. constructor.
  - destruct (f row) as [e|a] eqn:E; [discriminate|].
    destruct (map_rows f rows) as [e|l']; [discriminate|].
    intros [= <-]. constructor; [exact E|]. apply IH. reflexivity.
Qed.

Lemma humidity_column location temperature noise :
  zip_with (fun (bt : Z * float) n => humidity_of bt.1 bt.2 n)
    (zip (base_humidity_of <$> location) temperature) noise
  = zip_with (fun (lt : string * float) n => humidity_by_location lt.1 lt.2 n)
      (zip location temperature) noise.
Proof.
  revert temperature noise.
  induction location as [|loc location IH]; intros temperature noise;
    [reflexivity|].
  destruct temperature as [|t temperature]; [reflexivity|].
  destruct noise as [|n noise]; [reflexivity|].
  rewrite fmap_cons.
  change (zip (base_humidity_of loc :: (base_humidity_of <$> location))
            (t :: temperature))
    with ((base_humidity_of loc, t)
            :: zip (base_humidity_of <$> location) temperature).
  change (zip (loc :: location) (t :: temperature))
    with ((loc, t) :: zip location temperature).
  cbn [zip_with fst snd]. rewrite IH. reflexivity.
Qed.

Lemma signal_column location noise :
  zip_with signal_of (base_signal_of <$> location) noise
  = zip_with signal_by_location location noise.
Proof.
  revert noise. induction location as [|loc location IH]; intros noise;
    [reflexivity|].
  destruct noise as [|n noise]; [reflexivity|].
  rewrite fmap_cons. cbn [zip_with]. rewrite IH. reflexivity.
Qed.

Lemma located_rows df location :
  apply_location df = inr location ->
  Forall2 (fun row loc =>
             exists room qualifier,
               row_get (columns df) row "room_id/id" = inr room /\
               row_get (columns df) row "out/in" = inr qualifier /\
               loc = located room qualifier)
    (values df) location.
Proof.
  unfold apply_location. destruct (len df); [discriminate|].
  intros H. apply map_rows_Forall2 in H.
  eapply Forall2_impl; [exact H|].
  intros row loc. cbv beta. unfold location_of.
  destruct (row_get (columns df) row "room_id/id") as [e|room]; [discriminate|].
  destruct (row_get (columns df) row "out/in") as [e|qualifier]; [discriminate|].
  intros [= <-]. exists room, qualifier. repeat split; reflexivity.
Qed.

(** the columns of the result are those of the complete table, each
    without the cells of the rows whose date the format does not read *)
Lemma vendor_result_dated df ids noted temperature location :
  df_index (vendor_result df ids noted temperature location)
  = dated noted (df_index df) /\
  Forall2 (fun full kept : string * list scalar =>
             kept.1 = full.1 /\ kept.2 = dated noted full.2)
    (df_data (vendor_table (df_index df) ids noted temperature location
                (synthetic_draws (len df) (random_seed 42)).1))
    (df_data (vendor_result df ids noted temperature location)).
Proof.
  unfold vendor_result. cbn [df_index df_data]. split; [apply select_dated|].
  apply Forall2_fmap_r, Forall_Forall2_diag, Forall_forall.
  intros [c vals] _. cbn [fst snd]. split; [reflexivity|apply select_dated].
Qed.

(** *** The vendor transformation *)

(** C2. Transformer determinism: whatever the state of the generator, of
    the clock and of the output when the transformation starts, it returns
    the same table (so the same humidity, battery_level, signal_strength,
    device_type and firmware_version columns). When it returns, it has
    reseeded the generator with 42 and taken the samples in the order of
    [synthetic_draws]: humidity noise, battery base, battery noise, signal
    noise, device types, firmware versions; the table is built from those
    samples. When it raises on a table that has a row, it has not touched
    the world. *)
Theorem C2_transformer_determinism df w1 w2 :
  (_transform_kaggle_format df w1).1 = (_transform_kaggle_format df w2).1 /\
  match _transform_kaggle_format df w1 with
  | (inr out, w') =>
      w_rng w' = (synthetic_draws (len df) (random_seed 42)).2 /\
      exists ids noted temperature location,
        vendor_inputs df ids noted temperature location /\
        out = vendor_result df ids noted temperature location
  | (inl _, w') => len df <> 0%nat -> w' = w1
  end.
Proof.
  destruct (kaggle_cases df) as [(ids & noted & temperature & location & Hin)|[e He]].
  - rewrite !(kaggle_result df _ ids noted temperature location Hin).
    split; [reflexivity|]. split; [reflexivity|].
    exists ids, noted, temperature, location. split; [exact Hin|reflexivity].
  - rewrite !He. split; [reflexivity|]. intros _. reflexivity.
Qed.

(** C5 (as the code has it). Drop accounting: a vendor table with at least
    one row and a [temp] column that converts is transformed; with [noted]
    its [noted_date] column and [k = unparsed noted] the number of its dates
    that the format [%d-%m-%Y %H:%M] does not read, the result has
    [len df - k] rows, the count printed is [k] (nothing is printed when
    [k = 0]), the samples of all [len df] rows have been taken, and the
    result is the complete table, synthetic columns included, without the
    rows of those [k] dates: its labels and each of its columns are those of
    the complete table at the rows whose date the format reads. *)
Theorem C5_drop_accounting df w :
  issubset kaggle_columns df = true ->
  len df <> 0%nat ->
  (exists temp temperature,
      getitem df "temp" = inr temp /\ astype_float temp = inr temperature) ->
  exists ids noted temperature location out w',
    vendor_inputs df ids noted temperature location /\
    _transform_kaggle_format df w = (inr out, w') /\
    (unparsed noted <= len df)%nat /\
    len out = (len df - unparsed noted)%nat /\
    w_out w' = w_out w ++ (if bool_decide (unparsed noted = 0%nat) then []
                           else [MsgRemoved (unparsed noted)]) /\
    w_rng w' = (synthetic_draws (len df) (random_seed 42)).2 /\
    df_index out = dated noted (df_index df) /\
    Forall2 (fun full kept : string * list scalar =>
               kept.1 = full.1 /\ kept.2 = dated noted full.2)
      (df_data (vendor_table (df_index df) ids noted temperature location
                  (synthetic_draws (len df) (random_seed 42)).1))
      (df_data out).
Proof.
  intros Hsub Hlen Htemp.
  destruct (vendor_inputs_exist df Hsub Hlen Htemp)
    as (ids & noted & temperature & location & Hin).
  exists ids, noted, temperature, location.
  eexists _, _. pose proof Hin as (_ & Hnoted & _).
  pose proof (getitem_length _ _ _ Hnoted) as Lnoted.
  pose proof (unparseable_count noted) as Hcount.
  rewrite unparseable_unparsed in Hcount.
  split; [exact Hin|].
  split; [apply (kaggle_result df w ids noted temperature location Hin)|].
  split; [lia|].
  split; [rewrite <- unparseable_unparsed; apply vendor_result_len; exact Lnoted|].
  cbn [w_out w_rng]. rewrite unparseable_unparsed.
  split; [reflexivity|]. split; [reflexivity|].
  apply vendor_result_dated.
Qed.

(** C3 (as the code has it). The device id of a cell that is not missing
    is the prefix [IOT_TEMP_] followed by the first 8 characters,
    uppercased, of what follows the last underscore of the cell's text
    (all of it when it has none); a missing cell gives [IOT_TEMP_UNKNOWN];
    the id [__7] gives [IOT_TEMP_7]. The transformation puts these ids in
    the [device_id] column, one per surviving row. *)
Theorem C3_device_id_first_eight (x : scalar) :
  (notna x = true ->
     exists seg first rest,
       Text.has_char "_" seg = false /\
       (str x = seg \/ exists r, str x = r +:+ String "_" seg) /\
       seg = first +:+ rest /\
       String.length first = Nat.min 8 (String.length seg) /\
       device_id_of x = "IOT_TEMP_" +:+ Text.upper first) /\
  (notna x = false -> device_id_of x = "IOT_TEMP_UNKNOWN") /\
  device_id_of (SStr "__7") = "IOT_TEMP_7" /\
  (forall df w ids noted temperature location,
      vendor_inputs df ids noted temperature location ->
      exists out w',
        _transform_kaggle_format df w = (inr out, w') /\
        find_column "device_id" (df_data out)
        = Some (select (notna <$> (timestamp_of <$> noted))
                  (SStr <$> (device_id_of <$> ids)))).
Proof.
  split; [|split; [|split]].
  - intros Hx.
    destruct (TextFacts.last_segment_spec "_" (str x)) as [Hno Hseg].
    destruct (TextFacts.take_prefix 8
                (Text.last_segment (Text.split "_" (str x)))) as (rest & Hr & Hl).
    exists (Text.last_segment (Text.split "_" (str x))),
      (Text.take 8 (Text.last_segment (Text.split "_" (str x)))), rest.
    repeat split; try assumption.
    unfold device_id_of. rewrite Hx. reflexivity.
  - intros Hx. unfold device_id_of. rewrite Hx. reflexivity.
  - reflexivity.
  - intros df w ids noted temperature location Hin. eexists _, _.
    split; [apply (kaggle_result df w ids noted temperature location Hin)|].
    reflexivity.
Qed.

(** C10 (as the code has it). In the table the vendor transformation
    returns, the location of a row is its cleaned room identifier ([Room ]
    removed, [Admin] replaced by [Office]), an underscore and its lowercased
    qualifier; the humidity of the row is computed from the base 45 when
    that location holds [in] in any case and from 65 otherwise, and its
    signal strength from -55 or -45 by the same test. So a row whose cleaned
    room identifier holds [in] gets the indoor bases whatever its
    qualifier. *)
Theorem C10_indoor_by_location df w ids noted temperature location :
  vendor_inputs df ids noted temperature location ->
  let d := (synthetic_draws (len df) (random_seed 42)).1 in
  exists out w',
    _transform_kaggle_format df w = (inr out, w') /\
    Forall2 (fun row loc =>
               exists room qualifier,
                 row_get (columns df) row "room_id/id" = inr room /\
                 row_get (columns df) row "out/in" = inr qualifier /\
                 loc = located room qualifier)
      (values df) location /\
    find_column "location" (df_data out) = Some (dated noted (SStr <$> location)) /\
    find_column "humidity" (df_data out)
    = Some (dated noted
              (SFloat <$> zip_with (fun (lt : string * float) noise =>
                                      humidity_by_location lt.1 lt.2 noise)
                            (zip location temperature) (humidity_noise d))) /\
    find_column "signal_strength" (df_data out)
    = Some (dated noted
              (SFloat <$> zip_with signal_by_location location (signal_noise d))) /\
    (forall room qualifier t noise,
        Text.contains_ci "in" (cleaned_room room) = true ->
        humidity_by_location (located room qualifier) t noise
        = humidity_of 45 t noise /\
        signal_by_location (located room qualifier) noise = signal_of (-55) noise).
Proof.
  intros Hin d. eexists _, _.
  split; [apply (kaggle_result df w ids noted temperature location Hin)|].
  pose proof Hin as (_ & _ & _ & Hloc).
  split; [exact (located_rows df location Hloc)|].
  unfold vendor_result, vendor_table. fold d.
  cbn [df_data fmap list_fmap find_column fst snd String.eqb Ascii.eqb Bool.eqb].
  split; [rewrite select_dated; reflexivity|].
  split; [rewrite select_dated, humidity_column; reflexivity|].
  split; [rewrite select_dated, signal_column; reflexivity|].
  intros room qualifier t noise Hroom.
  unfold humidity_by_location, signal_by_location, located.
  rewrite (TextFacts.contains_ci_app _ _ _ Hroom). split; reflexivity.
Qed.

(** *** The schema dispatch and the generic treatment *)

Lemma print_say (m : Msg) (w : World) : print m w = (inr tt, say m w).
Proof. reflexivity. Qed.

(** C4. Classification precedence: a table whose columns include
    device_id, timestamp and temperature is returned as it is, whether or
    not it also has the vendor's columns; otherwise a table whose columns
    include id, room_id/id, noted_date, temp and out/in gets the vendor
    transformation; any other table gets the generic treatment. *)
Theorem C4_classification_precedence df file_name w :
  let cols : gset string := list_to_set (columns df) in
  (expected_columns ⊆ cols ->
     _transform_to_standard_format df file_name w
     = (inr df, say (MsgStandardFormat file_name) w)) /\
  (expected_columns ⊈ cols -> kaggle_columns ⊆ cols ->
     _transform_to_standard_format df file_name w
     = _transform_kaggle_format df (say (MsgKaggleFormat file_name) w)) /\
  (expected_columns ⊈ cols -> kaggle_columns ⊈ cols ->
     _transform_to_standard_format df file_name w
     = _transform_generic_format df (say (MsgUnknownFormat file_name) w)).
Proof.
  intros cols. unfold _transform_to_standard_format, issubset. fold cols.
  repeat split; intros; repeat case_bool_decide; try contradiction;
    reflexivity.
Qed.

Lemma rename_guarded old new df :
  let out := if bool_decide (old ∈ columns df) then rename old new df else df in
  df_index out = df_index df /\
  (df_data out).*2 = (df_data df).*2 /\
  columns out = (fun c => if String.eqb c old then new else c) <$> columns df.
Proof.
  cbv zeta. case_bool_decide as Hin.
  - unfold rename, columns. cbn [df_index df_data].
    rewrite <- !list_fmap_compose. repeat split; reflexivity.
  - repeat split; try reflexivity.
    unfold columns in *. induction (df_data df) as [|[k v] data IH]; [reflexivity|].
    rewrite !fmap_cons. cbn [fst]. rewrite fmap_cons in Hin. cbn [fst] in Hin.
    destruct (String.eqb k old) eqn:E.
    + apply String.eqb_eq in E. subst k. exfalso. apply Hin. left.
    + f_equal. apply IH. intros H. apply Hin. right. exact H.
Qed.

Lemma generic_label_two_steps c :
  generic_label c
  = (fun c => if String.eqb c "out/in" then "out_in" else c)
      ((fun c => if String.eqb c "room_id/id" then "room_id_id" else c) c).
Proof.
  unfold generic_label. destruct (String.eqb c "room_id/id"); reflexivity.
Qed.

(** C9 (as the code has it). The generic treatment always returns; it
    renames the label [room_id/id] to [room_id_id] and the label [out/in]
    to [out_in], and changes nothing else: the other labels, those with a
    slash among them, the row labels and every cell stay as they are. *)
Theorem C9_generic_renames_two_labels df w :
  exists out w',
    _transform_generic_format df w = (inr out, w') /\
    df_index out = df_index df /\
    (df_data out).*2 = (df_data df).*2 /\
    columns out = generic_label <$> columns df /\
    w_out w' = w_out w ++ [MsgColumns (columns df); MsgCleaned (columns out);
                           MsgRecords (len df)].
Proof.
  unfold _transform_generic_format.
  cbv beta iota zeta delta [bind ret print say].
  set (df1 := if bool_decide ("room_id/id" ∈ columns df)
              then rename "room_id/id" "room_id_id" df else df).
  set (df2 := if bool_decide ("out/in" ∈ columns df1)
              then rename "out/in" "out_in" df1 else df1).
  destruct (rename_guarded "room_id/id" "room_id_id" df) as (I1 & D1 & C1).
  destruct (rename_guarded "out/in" "out_in" df1) as (I2 & D2 & C2).
  fold df1 in I1, D1, C1. fold df2 in I2, D2, C2.
  eexists _, _. split; [reflexivity|].
  split; [congruence|]. split; [congruence|]. split.
  - rewrite C2, C1, <- list_fmap_compose.
    apply list_fmap_ext. intros i c _. symmetry. apply generic_label_two_steps.
  - cbn [w_out]. unfold len. rewrite I2, I1, <- !app_assoc. reflexivity.
Qed.

(** *** The content hasher *)

(** the read loop hands every byte of the file to the hash object *)
Lemma read_chunks_all fuel rest absorbed :
  (length rest < fuel)%nat -> read_chunks fuel rest absorbed = absorbed ++ rest.
Proof.
  revert rest absorbed; induction fuel as [|fuel IH]; intros rest absorbed H; [lia|].
  cbn [read_chunks].
  destruct (take 4096 rest) as [|b chunk] eqn:E.
  - destruct rest as [|b rest]; [rewrite app_nil_r; reflexivity|discriminate].
  - rewrite IH.
    + rewrite <- E, <- app_assoc, take_drop. reflexivity.
    + rewrite length_drop. destruct rest; [discriminate|]. cbn [length] in *. lia.
Qed.

(** a file that can be read is identified by the digest of its bytes *)
Lemma hash_of_content file_path content :
  path_open file_path = inr content ->
  _calculate_file_hash file_path = inr (sha256_hexdigest content).
Proof.
  intros H. unfold _calculate_file_hash. rewrite H.
  rewrite read_chunks_all by lia. reflexivity.
Qed.

(** a file that cannot be read and can be stat'ed gets the fallback
    identifier, a function of its name and size alone *)
Lemma hash_fallback file_path e st :
  path_open file_path = inl e ->
  path_stat file_path = inr st ->
  _calculate_file_hash file_path
  = inr ("error_" +:+ path_name file_path +:+ "_" +:+ pretty (st_size st)).
Proof.
  intros H1 H2. unfold _calculate_file_hash. rewrite H1, H2. reflexivity.
Qed.

(** a file that can be neither read nor stat'ed makes the hasher raise *)
Lemma hash_raises file_path e e' :
  path_open file_path = inl e ->
  path_stat file_path = inl e' ->
  _calculate_file_hash file_path = inl e'.
Proof.
  intros H1 H2. unfold _calculate_file_hash. rewrite H1, H2. reflexivity.
Qed.


(** *** The processing log *)



(** *** The rows of the first resource *)

Lemma identify_cases file_hash idx :
  match identify file_hash idx with
  | inr _ => numeric idx = true
  | inl e => numeric idx = false /\ e = TypeError
  end.
Proof. destruct idx; cbn; auto. Qed.

Lemma enrich_raises file_hash (meta : record) idx (row : record) e :
  enrich file_hash meta idx row = inl e -> numeric idx = false /\ e = TypeError.
Proof.
  unfold enrich. pose proof (identify_cases file_hash idx) as H.
  destruct (identify file_hash idx) as [e'|[id number]]; [|discriminate].
  intros [= <-]. exact H.
Qed.

Lemma enrich_returns file_hash (meta : record) idx (row : record) :
  numeric idx = true -> exists r, enrich file_hash meta idx row = inr r.
Proof.
  unfold enrich. pose proof (identify_cases file_hash idx) as H.
  destruct (identify file_hash idx) as [e'|[id number]]; [|eauto].
  destruct H as [H _]. congruence.
Qed.

Lemma enrich_returns_numeric file_hash (meta : record) idx (row r : record) :
  enrich file_hash meta idx row = inr r -> numeric idx = true.
Proof.
  unfold enrich. pose proof (identify_cases file_hash idx) as H.
  destruct (identify file_hash idx) as [e'|[id number]]; [discriminate|].
  intros _. exact H.
Qed.

(** what an emitted record holds: the identifier and the number of its
    row, the values of the file under the six keys of the metadata, and
    under any other key what the row has there *)
Lemma enrich_lookup csv_file size file_hash now total idx (row r : record) :
  enrich file_hash (file_metadata_of csv_file size file_hash now total) idx row
  = inr r ->
  identified file_hash idx r /\
  r !! "file_name" = Some (SStr (path_name csv_file)) /\
  r !! "file_path" = Some (SStr (path_str csv_file)) /\
  r !! "file_size_bytes" = Some (SInt size) /\
  r !! "file_hash" = Some (SStr file_hash) /\
  r !! "ingestion_timestamp" = Some (STime now) /\
  r !! "total_records" = Some (SInt (Z.of_nat total)) /\
  forall c, c ∉ reserved_keys -> r !! c = row !! c.
Proof.
  unfold enrich.
  destruct (identify file_hash idx) as [e|[id number]] eqn:E; [discriminate|].
  intros [= <-]. unfold file_metadata_of.
  assert (Hid : forall m : record,
    ((<[ "file_name" := SStr (path_name csv_file) ]>
      (<[ "file_path" := SStr (path_str csv_file) ]>
      (<[ "file_size_bytes" := SInt size ]>
      (<[ "file_hash" := SStr file_hash ]>
      (<[ "ingestion_timestamp" := STime now ]>
      (<[ "total_records" := SInt (Z.of_nat total) ]> ∅))))) ∪
      (<[ "file_record_id" := SStr id ]> (<[ "row_number" := number ]> ∅))) ∪ m)
      !! "file_record_id" = Some (SStr id)).
  { intros m. apply lookup_union_Some_l. rewrite lookup_union_r.
    - apply lookup_insert_eq.
    - rewrite !lookup_insert_ne by discriminate. apply lookup_empty. }
  assert (Hnum : forall m : record,
    ((<[ "file_name" := SStr (path_name csv_file) ]>
      (<[ "file_path" := SStr (path_str csv_file) ]>
      (<[ "file_size_bytes" := SInt size ]>
      (<[ "file_hash" := SStr file_hash ]>
      (<[ "ingestion_timestamp" := STime now ]>
      (<[ "total_records" := SInt (Z.of_nat total) ]> ∅))))) ∪
      (<[ "file_record_id" := SStr id ]> (<[ "row_number" := number ]> ∅))) ∪ m)
      !! "row_number" = Some number).
  { intros m. apply lookup_union_Some_l. rewrite lookup_union_r.
    - rewrite lookup_insert_ne by discriminate. apply lookup_insert_eq.
    - rewrite !lookup_insert_ne by discriminate. apply lookup_empty. }
  split; [|split; [|split; [|split; [|split; [|split; [|split]]]]]].
  - destruct idx as [z|f|b|t|l]; cbn [identify] in E; try discriminate;
      injection E as <- <-; cbn [identified].
    + split; [apply Hid|apply Hnum].
    + split; [apply Hid|apply Hnum].
    + split; [apply Hid|]. rewrite Hnum. destruct b; reflexivity.
  - do 2 apply lookup_union_Some_l. apply lookup_insert_eq.
  - do 2 apply lookup_union_Some_l.
    rewrite !lookup_insert_ne by discriminate. apply lookup_insert_eq.
  - do 2 apply lookup_union_Some_l.
    rewrite !lookup_insert_ne by discriminate. apply lookup_insert_eq.
  - do 2 apply lookup_union_Some_l.
    rewrite !lookup_insert_ne by discriminate. apply lookup_insert_eq.
  - do 2 apply lookup_union_Some_l.
    rewrite !lookup_insert_ne by discriminate. apply lookup_insert_eq.
  - do 2 apply lookup_union_Some_l.
    rewrite !lookup_insert_ne by discriminate. apply lookup_insert_eq.
  - intros c Hc. unfold reserved_keys in Hc.
    assert (Hne : c <> "file_record_id" /\ c <> "row_number" /\ c <> "file_name" /\
                  c <> "file_path" /\ c <> "file_size_bytes" /\ c <> "file_hash" /\
                  c <> "ingestion_timestamp" /\ c <> "total_records").
    { repeat split; intros ->; apply Hc; repeat constructor. }
    destruct Hne as (N1 & N2 & N3 & N4 & N5 & N6 & N7 & N8).
    rewrite lookup_union_r; [reflexivity|].
    apply lookup_union_None. split.
    + rewrite !lookup_insert_ne by congruence. apply lookup_empty.
    + rewrite !lookup_insert_ne by congruence. apply lookup_empty.
Qed.

(** the loop yields a record for each row up to the first whose label
    [idx + 1] is not defined on, and stops there with [TypeError] *)
Lemma yield_records_spec file_hash (meta : record) labels rows :
  exists good rest,
    rows = good ++ rest /\
    Forall2 (fun (ir : label * list scalar) (r : record) =>
               enrich file_hash meta ir.1 (to_dict labels ir.2) = inr r)
      good (yield_records file_hash meta labels rows).1 /\
    match rest with
    | [] => (yield_records file_hash meta labels rows).2 = None
    | bad :: _ =>
        numeric bad.1 = false /\
        (yield_records file_hash meta labels rows).2 = Some TypeError
    end.
Proof.
  induction rows as [|[idx row] rows IH].
  - exists [], []. split; [reflexivity|]. split; [constructor|reflexivity].
  - cbn [yield_records].
    destruct (enrich file_hash meta idx (to_dict labels row)) as [e|r] eqn:E.
    + exists [], ((idx, row) :: rows). split; [reflexivity|].
      split; [constructor|]. apply enrich_raises in E as [Hn ->].
      split; [exact Hn|reflexivity].
    + destruct IH as (good & rest & -> & Hall & Hrest).
      destruct (yield_records file_hash meta labels (good ++ rest))
        as [more err]. cbn [fst snd] in *.
      exists ((idx, row) :: good), rest. split; [reflexivity|].
      split; [constructor; [exact E|exact Hall]|exact Hrest].
Qed.

Lemma iterrows_labels df : (iterrows df).*1 = df_index df.
Proof.
  unfold iterrows. apply fst_zip. rewrite values_length. reflexivity.
Qed.

Lemma iterrows_values df : (iterrows df).*2 = values df.
Proof.
  unfold iterrows. apply snd_zip. rewrite values_length. reflexivity.
Qed.

Lemma iterrows_length df : length (iterrows df) = len df.
Proof.
  rewrite <- (length_fmap fst), iterrows_labels. reflexivity.
Qed.

(** the [try] body up to the loop, when the file decodes to a table with a
    row and a column, the dispatch returns and the status can be read *)
Lemma prepare_run csv_file file_hash df out st w w1 w2 :
  _load_csv_with_fallback csv_file w = (inr (Some df), w1) ->
  empty df = false ->
  _transform_to_standard_format df (path_name csv_file) w1 = (inr out, w2) ->
  path_stat csv_file = inr st ->
  prepare csv_file file_hash w
  = (inr (Some (out, file_metadata_of csv_file (st_size st) file_hash
                       (clock (w_clock w2)) (len out))),
     mkWorld (w_rng w2) (w_out w2) (S (w_clock w2))).
Proof.
  intros Hload Hne Hdisp Hst. unfold prepare. cbv beta iota delta [bind].
  rewrite Hload. cbv beta iota. rewrite Hne, Hdisp. cbv beta iota.
  unfold lift. rewrite Hst. reflexivity.
Qed.

Lemma process_file_run csv_file file_hash df out st w w1 w2 :
  _load_csv_with_fallback csv_file w = (inr (Some df), w1) ->
  empty df = false ->
  _transform_to_standard_format df (path_name csv_file) w1 = (inr out, w2) ->
  path_stat csv_file = inr st ->
  exists w',
    process_file csv_file file_hash w
    = (yield_records file_hash
         (file_metadata_of csv_file (st_size st) file_hash
            (clock (w_clock w2)) (len out))
         (columns out) (iterrows out), w') /\
    w_rng w' = w_rng w2.
Proof.
  intros Hload Hne Hdisp Hst. unfold process_file.
  rewrite (prepare_run csv_file file_hash df out st w w1 w2) by assumption.
  destruct (yield_records file_hash
              (file_metadata_of csv_file (st_size st) file_hash
                 (clock (w_clock w2)) (len out))
              (columns out) (iterrows out)) as [records [e|]];
    eexists; split; reflexivity.
Qed.

(** the [try] body, when it yields records: the table they come from, the
    status of the file and the reading of the clock they share *)
Lemma process_file_records csv_file file_hash w records err w' :
  process_file csv_file file_hash w = ((records, err), w') ->
  records = [] \/
  exists df st now,
    path_stat csv_file = inr st /\
    (records, err)
    = yield_records file_hash
        (file_metadata_of csv_file (st_size st) file_hash now (len df))
        (columns df) (iterrows df).
Proof.
  unfold process_file, prepare. cbv beta iota delta [bind].
  destruct (_load_csv_with_fallback csv_file w) as [[e|[loaded|]] w1];
    [intros [= <- _ _]; left; reflexivity|
    |cbv beta iota delta [ret print]; intros [= <- _ _]; left; reflexivity].
  destruct (empty loaded);
    [cbv beta iota delta [ret print]; intros [= <- _ _]; left; reflexivity|].
  destruct (_transform_to_standard_format loaded (path_name csv_file) w1)
    as [[e|df] w2]; [intros [= <- _ _]; left; reflexivity|].
  unfold lift. destruct (path_stat csv_file) as [e|st];
    [intros [= <- _ _]; left; reflexivity|].
  cbv beta iota delta [ret datetime_now].
  destruct (yield_records file_hash
              (file_metadata_of csv_file (st_size st) file_hash
                 (clock (w_clock w2)) (len df))
              (columns df) (iterrows df)) as [rs [e|]] eqn:Hy;
    intros [= <- <- _]; right; exists df, st, (clock (w_clock w2));
    (split; [reflexivity|symmetry; exact Hy]).
Qed.

(** the identifier is one-to-one in an integer label *)
Lemma file_record_id_inj file_hash (i j : Z) :
  file_hash +:+ "_" +:+ pretty i = file_hash +:+ "_" +:+ pretty j -> i = j.
Proof.
  intros H. apply String.app_inj in H. apply (String.app_inj "_") in H.
  apply (inj pretty) in H. exact H.
Qed.

Lemma identifiers_of_integer_labels file_hash (zs : list Z) (records : list record) :
  Forall2 (fun idx (r : record) =>
             identified file_hash idx r /\ r !! "file_hash" = Some (SStr file_hash))
    (LInt <$> zs) records ->
  (fun r : record => r !! "file_record_id") <$> records
  = (fun z : Z => Some (SStr (file_hash +:+ "_" +:+ pretty z))) <$> zs.
Proof.
  revert records. induction zs as [|z zs IH]; intros records H.
  - inversion H. reflexivity.
  - rewrite fmap_cons in H. inversion H as [|? r ? rs Hhead Hrest]; subst.
    cbn [identified] in Hhead. destruct Hhead as [[Hid _] _].
    rewrite !fmap_cons. f_equal; [exact Hid|apply IH; exact Hrest].
Qed.

(** X2. The rows of one file. Let [out] be the table the dispatch returns
    for a file. The [try] body yields one record for each row of [out], in
    order, up to the first row whose label is a text or a tuple, where
    [idx + 1] raises [TypeError]; when there is no such row it yields one
    for every row and does not raise. The record of a row labelled [idx]
    carries [file_record_id = hash + "_" + idx], [row_number = idx + 1] and
    the hash of the file. After a vendor transformation the labels are
    those of the rows kept, not their positions. When the labels of the
    rows yielded are distinct integers, the identifiers are distinct. *)
Theorem records_of_one_file csv_file file_hash df out st w w1 w2 :
  _load_csv_with_fallback csv_file w = (inr (Some df), w1) ->
  empty df = false ->
  _transform_to_standard_format df (path_name csv_file) w1 = (inr out, w2) ->
  path_stat csv_file = inr st ->
  exists records err w' good rest,
    process_file csv_file file_hash w = ((records, err), w') /\
    df_index out = good ++ rest /\
    Forall2 (fun idx (r : record) =>
               identified file_hash idx r /\
               r !! "file_hash" = Some (SStr file_hash))
      good records /\
    match rest with
    | [] => err = None
    | bad :: _ => numeric bad = false /\ err = Some TypeError
    end /\
    (forall zs : list Z,
        good = LInt <$> zs -> NoDup zs ->
        NoDup ((fun r : record => r !! "file_record_id") <$> records)).
Proof.
  intros Hload Hne Hdisp Hst.
  destruct (process_file_run csv_file file_hash df out st w w1 w2
              Hload Hne Hdisp Hst) as (w' & Hrun & _).
  destruct (yield_records_spec file_hash
              (file_metadata_of csv_file (st_size st) file_hash
                 (clock (w_clock w2)) (len out))
              (columns out) (iterrows out))
    as (goodr & restr & Hsplit & Hall & Hrest).
  destruct (yield_records file_hash
              (file_metadata_of csv_file (st_size st) file_hash
                 (clock (w_clock w2)) (len out))
              (columns out) (iterrows out)) as [records err].
  cbn [fst snd] in *.
  exists records, err, w', (goodr.*1), (restr.*1).
  split; [exact Hrun|].
  split; [rewrite <- iterrows_labels, Hsplit, fmap_app; reflexivity|].
  assert (Hgood : Forall2 (fun idx (r : record) =>
                     identified file_hash idx r /\
                     r !! "file_hash" = Some (SStr file_hash))
                    (goodr.*1) records).
  { apply Forall2_fmap_l. eapply Forall2_impl; [exact Hall|].
    intros [idx row] r E. cbn [fst snd] in *.
    apply enrich_lookup in E as (H1 & _ & _ & _ & H5 & _). split; assumption. }
  split; [exact Hgood|]. split.
  - destruct restr as [|[bad row] restr]; [exact Hrest|exact Hrest].
  - intros zs Hzs Hnd. rewrite Hzs in Hgood.
    rewrite (identifiers_of_integer_labels file_hash zs records Hgood).
    apply NoDup_fmap_2; [|exact Hnd].
    intros i j [= Hij]. exact (file_record_id_inj _ _ _ Hij).
Qed.

(** X3. The hasher, case by case. A file that can be read gets the digest of its
    bytes; one that cannot be read and can be stat'ed gets the fallback
    [error_] + name + [_] + size, the same for the same name and size; one
    that can be neither read nor stat'ed makes the hasher raise. *)
Theorem hasher_cases file_path :
  match path_open file_path, path_stat file_path with
  | inr content, _ =>
      _calculate_file_hash file_path = inr (sha256_hexdigest content)
  | inl _, inr st =>
      _calculate_file_hash file_path
      = inr ("error_" +:+ path_name file_path +:+ "_" +:+ pretty (st_size st))
  | inl _, inl e => _calculate_file_hash file_path = inl e
  end.
Proof.
  destruct (path_open file_path) as [e|content] eqn:Ho.
  - destruct (path_stat file_path) as [e'|st] eqn:Hs.
    + exact (hash_raises _ _ _ Ho Hs).
    + exact (hash_fallback _ _ _ Ho Hs).
  - exact (hash_of_content _ _ Ho).
Qed.

(** X1. The skip. When every listed file hashes to a member of the set the loop
    is given, the loop yields no row, raises nothing and prints one
    skipping message per file: no file is decoded. *)
Theorem registered_files_are_skipped processed_files csv_files w :
  Forall (fun p => exists h, _calculate_file_hash p = inr h /\ h ∈ processed_files)
    csv_files ->
  (load_loop processed_files csv_files w).1 = ([], None) /\
  (load_loop processed_files csv_files w).2
  = mkWorld (w_rng w)
      (w_out w ++ ((fun p => MsgSkipping (path_name p)) <$> csv_files))
      (w_clock w).
Proof.
  intros Hall. revert w. induction Hall as [|p files (h & Hh & Hin) _ IH]; intros w.
  - split; [reflexivity|]. cbn. rewrite app_nil_r. destruct w; reflexivity.
  - cbn [load_loop]. rewrite Hh. rewrite bool_decide_eq_true_2 by exact Hin.
    destruct (IH (say (MsgSkipping (path_name p)) w)) as [H1 H2].
    split; [exact H1|]. rewrite H2. cbn [say w_out w_rng w_clock].
    rewrite fmap_cons, <- app_assoc. reflexivity.
Qed.

(** *** The loader *)

Lemma try_encodings_spec file_path encs w :
  exists res w',
    try_encodings file_path encs w = (inr res, w') /\
    w_rng w' = w_rng w /\
    w_clock w' = w_clock w /\
    (exists msgs, w_out w' = w_out w ++ msgs) /\
    match res with
    | Some df =>
        exists pre encoding post,
          encs = pre ++ encoding :: post /\
          Forall (fun enc => exists e, read_csv file_path enc = inl e) pre /\
          read_csv file_path encoding = inr df
    | None => Forall (fun enc => exists e, read_csv file_path enc = inl e) encs
    end.
Proof.
  revert w. induction encs as [|encoding rest IH]; intros w.
  - exists None, (say (MsgCouldNotRead (path_name file_path)) w).
    split; [reflexivity|]. split; [reflexivity|]. split; [reflexivity|].
    split; [eexists; reflexivity|constructor].
  - cbn [try_encodings].
    destruct (read_csv file_path encoding) as [e|df] eqn:E.
    + assert (Hstep : exists w1,
                (match e with
                 | UnicodeDecodeError => try_encodings file_path rest
                 | _ => bind (print (MsgEncodingError encoding e))
                          (fun _ => try_encodings file_path rest)
                 end) w = try_encodings file_path rest w1 /\
                w_rng w1 = w_rng w /\ w_clock w1 = w_clock w /\
                exists msgs, w_out w1 = w_out w ++ msgs).
      { destruct e; cbv beta iota;
          lazymatch goal with
          | |- context [MsgEncodingError encoding ?e'] =>
              exists (say (MsgEncodingError encoding e') w);
              split; [reflexivity|]; split; [reflexivity|];
              split; [reflexivity|]; eexists; reflexivity
          | _ =>
              exists w; split; [reflexivity|]; split; [reflexivity|];
              split; [reflexivity|]; exists []; rewrite app_nil_r; reflexivity
          end. }
      destruct Hstep as (w1 & Hstep & Hr1 & Hc1 & msgs1 & Ho1).
      destruct (IH w1) as (res & w' & Hrun & Hr & Hc & (msgs & Ho) & Hres).
      exists res, w'.
      split; [destruct e; (rewrite <- Hrun; exact Hstep)|].
      split; [congruence|]. split; [congruence|].
      split; [exists (msgs1 ++ msgs); rewrite Ho, Ho1, app_assoc; reflexivity|].
      destruct res as [df|].
      * destruct Hres as (pre & enc & post & -> & Hpre & Hok).
        exists (encoding :: pre), enc, post.
        split; [reflexivity|]. split; [constructor; eauto|exact Hok].
      * constructor; eauto.
    + exists (Some df), (say (MsgLoaded (path_name file_path) encoding) w).
      split; [reflexivity|]. split; [reflexivity|]. split; [reflexivity|].
      split; [eexists; reflexivity|].
      exists [], encoding, rest. split; [reflexivity|]. split; [constructor|exact E].
Qed.

(** X4. The loader never raises and touches neither the generator nor the
    clock; it only adds to the output. When it returns a table, that table
    is what [read_csv] gives under the first encoding of the list, in its
    order, that parses the file (every encoding before it has failed, and
    no later one is tried into the result); it returns [None] exactly when
    all five encodings fail. *)
Theorem load_csv_first_encoding_that_parses file_path w :
  exists res w',
    _load_csv_with_fallback file_path w = (inr res, w') /\
    w_rng w' = w_rng w /\
    w_clock w' = w_clock w /\
    (exists msgs, w_out w' = w_out w ++ msgs) /\
    match res with
    | Some df =>
        exists pre encoding post,
          ["utf-8"; "utf-8-sig"; "latin1"; "cp1252"; "iso-8859-1"]
          = pre ++ encoding :: post /\
          Forall (fun enc => exists e, read_csv file_path enc = inl e) pre /\
          read_csv file_path encoding = inr df
    | None =>
        Forall (fun enc => exists e, read_csv file_path enc = inl e)
          ["utf-8"; "utf-8-sig"; "latin1"; "cp1252"; "iso-8859-1"]
    end.
Proof. exact (try_encodings_spec file_path encodings w). Qed.

(** *** The first resource over a listing *)

(** a listing in two parts: the loop runs the first part, and the second
    part from the world the first part left, unless the first part stopped *)
Lemma load_loop_app processed_files l1 l2 w :
  load_loop processed_files (l1 ++ l2) w =
  match load_loop processed_files l1 w with
  | ((rows1, None), w1) =>
      let '((rows2, err), w2) := load_loop processed_files l2 w1 in
      ((rows1 ++ rows2, err), w2)
  | ((rows1, Some e), w1) => ((rows1, Some e), w1)
  end.
Proof.
  revert w. induction l1 as [|p l1 IH]; intros w.
  - cbn [app load_loop]. destruct (load_loop processed_files l2 w) as [[rows2 err] w2].
    reflexivity.
  - rewrite <- app_comm_cons. cbn [load_loop].
    destruct (_calculate_file_hash p) as [e|h]; [reflexivity|].
    case_bool_decide.
    + apply IH.
    + destruct (try_process_file p h (say (MsgProcessing (path_name p)) w))
        as [records w1].
      rewrite IH.
      destruct (load_loop processed_files l1 w1) as [[rows1 [e|]] w1'].
      * reflexivity.
      * destruct (load_loop processed_files l2 w1') as [[rows2 err] w2].
        rewrite app_assoc. reflexivity.
Qed.

(** X5. The first resource over a listing. When the hasher returns on every
    listed file, the loop completes without raising, whatever decoding, the
    transformation or [stat] do on any file. When the hasher raises on a
    file, the loop stops there with that exception: it has yielded the rows
    of the files before it, in the world they left, and nothing of the files
    after it. *)
Theorem load_stops_only_where_the_hasher_raises processed_files pre w :
  Forall (fun p => exists h, _calculate_file_hash p = inr h) pre ->
  exists rows w',
    load_loop processed_files pre w = ((rows, None), w') /\
    forall bad post e,
      _calculate_file_hash bad = inl e ->
      load_loop processed_files (pre ++ bad :: post) w = ((rows, Some e), w').
Proof.
  intros Hall.
  assert (Hrun : exists rows w',
             load_loop processed_files pre w = ((rows, None), w')).
  { revert w. induction Hall as [|p files [h Hh] _ IH]; intros w.
    - exists [], w. reflexivity.
    - cbn [load_loop]. rewrite Hh. case_bool_decide.
      + apply IH.
      + destruct (try_process_file p h (say (MsgProcessing (path_name p)) w))
          as [records w1].
        destruct (IH w1) as (rows & w' & ->). eauto. }
  destruct Hrun as (rows & w' & Hrun). exists rows, w'.
  split; [exact Hrun|]. intros bad post e Hbad.
  rewrite load_loop_app, Hrun. cbn [load_loop]. rewrite Hbad.
  rewrite app_nil_r. reflexivity.
Qed.

(** *** What an emitted record holds *)

(** [row.to_dict()] on a row with distinct column labels: the dict holds
    under each label the cell of its column *)
Lemma to_dict_lookup labels (row : list scalar) i c :
  NoDup labels -> length labels = length row ->
  labels !! i = Some c ->
  to_dict labels row !! c = row !! i.
Proof.
  intros Hnd Hlen Hc.
  destruct (row !! i) as [x|] eqn:Hx.
  - unfold to_dict. apply elem_of_list_to_map_1.
    + rewrite fmap_reverse, fst_zip by lia. rewrite reverse_Permutation.
      exact Hnd.
    + apply elem_of_reverse. apply (list_elem_of_lookup_2 _ i).
      apply lookup_zip_Some. split; assumption.
  - apply lookup_ge_None in Hx. apply lookup_lt_Some in Hc. lia.
Qed.

(** the rows of a table the loop has gone through *)
Lemma yielded_rows file_hash (meta : record) df :
  let y := yield_records file_hash meta (columns df) (iterrows df) in
  Forall2 (fun (row : list scalar) (r : record) =>
             exists idx, enrich file_hash meta idx (to_dict (columns df) row) = inr r)
    (take (length y.1) (values df)) y.1.
Proof.
  cbv zeta.
  destruct (yield_records_spec file_hash meta (columns df) (iterrows df))
    as (good & rest & Hsplit & Hall & _).
  assert (Hv : values df = good.*2 ++ rest.*2)
    by (rewrite <- iterrows_values, Hsplit, fmap_app; reflexivity).
  rewrite <- (Forall2_length _ _ _ Hall), Hv, <- (length_fmap snd good).
  rewrite take_app_length. apply Forall2_fmap_l.
  eapply Forall2_impl; [exact Hall|].
  intros [idx row] r E. exists idx. exact E.
Qed.

(** X6. [record.update] on the records of a file. Let [out] be the table
    the dispatch returns for a file, with distinct column labels. Every
    record the [try] body yields, for the row of [out] it comes from, holds
    under each column label that is not one of the eight keys of the update
    the cell of that column, and under the six keys of the file metadata
    the values of the file, also when [out] has a column of that name,
    whose cell is lost; [file_record_id] and [row_number] are there. *)
Theorem metadata_wins_over_columns csv_file file_hash df out st w w1 w2 :
  _load_csv_with_fallback csv_file w = (inr (Some df), w1) ->
  empty df = false ->
  _transform_to_standard_format df (path_name csv_file) w1 = (inr out, w2) ->
  path_stat csv_file = inr st ->
  NoDup (columns out) ->
  exists records err w',
    process_file csv_file file_hash w = ((records, err), w') /\
    Forall2 (fun (row : list scalar) (r : record) =>
               r !! "file_name" = Some (SStr (path_name csv_file)) /\
               r !! "file_path" = Some (SStr (path_str csv_file)) /\
               r !! "file_size_bytes" = Some (SInt (st_size st)) /\
               r !! "file_hash" = Some (SStr file_hash) /\
               r !! "ingestion_timestamp" = Some (STime (clock (w_clock w2))) /\
               r !! "total_records" = Some (SInt (Z.of_nat (len out))) /\
               is_Some (r !! "file_record_id") /\
               is_Some (r !! "row_number") /\
               forall i c,
                 columns out !! i = Some c -> c ∉ reserved_keys ->
                 r !! c = row !! i)
      (take (length records) (values out)) records.
Proof.
  intros Hload Hne Hdisp Hst Hnd.
  destruct (process_file_run csv_file file_hash df out st w w1 w2
              Hload Hne Hdisp Hst) as (w' & Hrun & _).
  pose proof (yielded_rows file_hash
                (file_metadata_of csv_file (st_size st) file_hash
                   (clock (w_clock w2)) (len out)) out) as Hrows.
  cbv zeta in Hrows.
  destruct (yield_records file_hash
              (file_metadata_of csv_file (st_size st) file_hash
                 (clock (w_clock w2)) (len out))
              (columns out) (iterrows out)) as [records err].
  cbn [fst snd] in *. exists records, err, w'. split; [exact Hrun|].
  clear Hrun.
  assert (Hlen : Forall (fun row : list scalar => length (columns out) = length row)
                   (take (length records) (values out))).
  { apply Forall_forall. intros row Hrow. symmetry. apply values_row_length.
    apply elem_of_take in Hrow as (i & Hi & _).
    exact (list_elem_of_lookup_2 _ i _ Hi). }
  revert Hlen. induction Hrows as [|row r rows rs [idx E] _ IH]; intros Hlen;
    [constructor|].
  inversion Hlen as [|? ? Hrow Hrest]; subst.
  constructor; [|exact (IH Hrest)].
  apply enrich_lookup in E as (H1 & H2 & H3 & H4 & H5 & H6 & H7 & H8).
  split; [exact H2|]. split; [exact H3|]. split; [exact H4|].
  split; [exact H5|]. split; [exact H6|]. split; [exact H7|].
  assert (Hid : is_Some (r !! "file_record_id") /\ is_Some (r !! "row_number")).
  { destruct idx; cbn [identified] in H1; try contradiction;
      destruct H1 as [-> ->]; split; eauto. }
  split; [exact (proj1 Hid)|]. split; [exact (proj2 Hid)|].
  intros i c Hc Hres. rewrite (H8 c Hres).
  apply to_dict_lookup; assumption.
Qed.

(** the records of a file agree on the file *)
Lemma yielded_metadata csv_file size file_hash now total labels rows :
  let y := yield_records file_hash
             (file_metadata_of csv_file size file_hash now total) labels rows in
  Forall (fun r : record =>
            r !! "file_name" = Some (SStr (path_name csv_file)) /\
            r !! "file_path" = Some (SStr (path_str csv_file)) /\
            r !! "file_size_bytes" = Some (SInt size) /\
            r !! "file_hash" = Some (SStr file_hash) /\
            r !! "ingestion_timestamp" = Some (STime now) /\
            r !! "total_records" = Some (SInt (Z.of_nat total)))
    y.1 /\
  (length y.1 <= length rows)%nat /\
  (y.2 = None -> length y.1 = length rows).
Proof.
  cbv zeta.
  destruct (yield_records_spec file_hash
              (file_metadata_of csv_file size file_hash now total) labels rows)
    as (good & rest & -> & Hall & Hrest).
  pose proof (Forall2_length _ _ _ Hall) as Hlen.
  split; [|split].
  - apply (Forall2_Forall_r _ _ _ _ Hall), Forall_forall.
    intros [idx row] _ r E.
    apply enrich_lookup in E as (_ & H2 & H3 & H4 & H5 & H6 & H7 & _).
    repeat split; assumption.
  - rewrite length_app. lia.
  - intros Hnone. destruct rest as [|bad rest].
    + rewrite length_app. cbn [length]. lia.
    + destruct Hrest as [_ Hsome]. congruence.
Qed.

(** X7. The records of one file agree on the file: they carry the same name,
    path, size (that of the file's status), hash and capture time, the clock
    being read once per file, and the same [total_records], the number of
    rows of the table they come from; it is the number of records the file
    yields when the loop is not stopped by an exception, and at least that
    number when it is. *)
Theorem records_share_file_metadata csv_file file_hash w records err w' :
  process_file csv_file file_hash w = ((records, err), w') ->
  records <> [] ->
  exists st now total,
    path_stat csv_file = inr st /\
    Forall (fun r : record =>
              r !! "file_name" = Some (SStr (path_name csv_file)) /\
              r !! "file_path" = Some (SStr (path_str csv_file)) /\
              r !! "file_size_bytes" = Some (SInt (st_size st)) /\
              r !! "file_hash" = Some (SStr file_hash) /\
              r !! "ingestion_timestamp" = Some (STime now) /\
              r !! "total_records" = Some (SInt (Z.of_nat total)))
      records /\
    (length records <= total)%nat /\
    (err = None -> total = length records).
Proof.
  intros H Hne.
  apply process_file_records in H as [->|(df & st & now & Hst & Hy)];
    [congruence|].
  exists st, now, (len df). split; [exact Hst|].
  pose proof (yielded_metadata csv_file (st_size st) file_hash now (len df)
                (columns df) (iterrows df)) as Hm.
  cbv zeta in Hm. rewrite <- Hy in Hm. cbn [fst snd] in Hm.
  rewrite iterrows_length in Hm. destruct Hm as (Hall & Hle & Heq).
  split; [exact Hall|]. split; [exact Hle|].
  intros Hnone. symmetry. exact (Heq Hnone).
Qed.

(** *** The log resource over a listing *)






(** *** The shape of the vendor table *)

(** X10. The table the vendor transformation returns. It has the nine
    columns device_id, timestamp, temperature, location, humidity,
    battery_level, signal_strength, device_type, firmware_version, in this
    order and no other; every column has one cell per row; its row labels
    are the labels the input gave the rows whose date the format
    [%d-%m-%Y %H:%M] reads, in their order (rows are not relabelled after
    the drop); and its timestamps are the readings of those dates. *)
Theorem vendor_table_shape df w ids noted temperature location :
  vendor_inputs df ids noted temperature location ->
  exists out w',
    _transform_kaggle_format df w = (inr out, w') /\
    columns out = vendor_labels /\
    Forall (fun kv => length kv.2 = len out) (df_data out) /\
    df_index out = dated noted (df_index df) /\
    find_column "timestamp" (df_data out)
    = Some (STime <$> omap (to_datetime "%d-%m-%Y %H:%M") noted).
Proof.
  intros Hin. eexists _, _.
  split; [apply (kaggle_result df w ids noted temperature location Hin)|].
  pose proof Hin as (Hid & Hnoted & (temp & Htemp & Hfloat) & Hloc).
  pose proof (getitem_length _ _ _ Hid) as Lid.
  pose proof (getitem_length _ _ _ Hnoted) as Lnoted.
  pose proof (getitem_length _ _ _ Htemp) as Ltemp.
  pose proof (astype_float_length _ _ Hfloat) as Lfloat.
  pose proof (apply_location_length _ _ Hloc) as Lloc.
  split; [reflexivity|]. split; [|split].
  - unfold vendor_result, len at 1. cbn [df_data df_index].
    apply Forall_fmap.
    eapply Forall_impl;
      [apply (vendor_table_columns (df_index df) ids noted temperature location
                (len df) (random_seed 42)); unfold len in *; congruence|].
    intros [c vals] Hlen. unfold compose. cbn [fst snd] in *.
    rewrite !select_length; [reflexivity| |];
      rewrite !length_fmap; unfold len in *; congruence.
  - apply select_dated.
  - unfold vendor_result, vendor_table.
    cbn [df_data fmap list_fmap find_column fst snd String.eqb Ascii.eqb Bool.eqb].
    rewrite select_timestamps_parsed. reflexivity.
Qed.

Lemma astype_float_error vals e :
  astype_float vals = inl e -> e = ValueError \/ e = TypeError.
Proof.
  induction vals as [|x vals IH]; cbn [astype_float]; [discriminate|].
  destruct (to_float x) as [e'|f] eqn:E.
  - intros [= <-]. destruct x as [z|f|[]|s| |]; cbn [to_float] in E;
      try discriminate.
    + destruct (float_of_str s); [discriminate|]. injection E as <-. left. reflexivity.
    + injection E as <-. right. reflexivity.
    + injection E as <-. right. reflexivity.
  - destruct (astype_float vals); [|discriminate]. intros [= <-]. apply IH. reflexivity.
Qed.

(** X11. What can go wrong in the vendor transformation once the table is
    classified. A table with the vendor's five columns and at least one row
    never raises [KeyError]: either the transformation returns, or the
    [temp] column does not convert to float and the transformation raises
    that conversion's [ValueError] or [TypeError], before it reseeds the
    generator or prints anything. *)
Theorem vendor_fails_only_on_temp df w :
  issubset kaggle_columns df = true ->
  len df <> 0%nat ->
  (exists out w', _transform_kaggle_format df w = (inr out, w')) \/
  (exists temp e,
      getitem df "temp" = inr temp /\
      astype_float temp = inl e /\
      (e = ValueError \/ e = TypeError) /\
      _transform_kaggle_format df w = (inl e, w)).
Proof.
  intros Hsub Hlen.
  assert (Hin : forall c, c ∈ kaggle_columns -> c ∈ columns df)
    by (intros c; apply issubset_elem; exact Hsub).
  destruct (getitem_elem df "temp") as [temp Htemp];
    [apply Hin; unfold kaggle_columns; set_solver|].
  destruct (astype_float temp) as [e|temperature] eqn:Hfloat.
  - right. exists temp, e. split; [exact Htemp|]. split; [exact Hfloat|].
    split; [exact (astype_float_error _ _ Hfloat)|].
    destruct (getitem_elem df "id") as [ids Hid];
      [apply Hin; unfold kaggle_columns; set_solver|].
    destruct (getitem_elem df "noted_date") as [noted Hnoted];
      [apply Hin; unfold kaggle_columns; set_solver|].
    unfold _transform_kaggle_format.
    cbv beta iota delta [bind lift ret raise]. rewrite Hid.
    cbv beta iota. rewrite Hnoted. cbv beta iota. rewrite Htemp.
    cbv beta iota. rewrite Hfloat. reflexivity.
  - left.
    destruct (vendor_inputs_exist df Hsub Hlen)
      as (ids & noted & temperature' & location & Hvin); [eauto|].
    eexists _, _.
    apply (kaggle_result df w ids noted temperature' location Hvin).
Qed.

(** *** The generic treatment as a function on tables *)

Lemma rename_absent old new df :
  old ∉ columns df -> rename old new df = df.
Proof.
  destruct df as [index data]. unfold rename, columns. cbn [df_index df_data].
  intros H. f_equal.
  induction data as [|[k v] data IH]; [reflexivity|].
  rewrite fmap_cons. cbn [fst snd]. rewrite fmap_cons in H. cbn [fst] in H.
  destruct (String.eqb k old) eqn:E.
  - apply String.eqb_eq in E. subst k. exfalso. apply H. left.
  - f_equal. apply IH. intros Hin. apply H. right. exact Hin.
Qed.

Lemma rename_if old new df :
  (if bool_decide (old ∈ columns df) then rename old new df else df)
  = rename old new df.
Proof.
  case_bool_decide; [reflexivity|symmetry; apply rename_absent; assumption].
Qed.

Lemma generic_run df w :
  _transform_generic_format df w =
  (inr (generic_table df),
   mkWorld (w_rng w)
     (w_out w ++ [MsgColumns (columns df); MsgCleaned (columns (generic_table df));
                  MsgRecords (len df)])
     (w_clock w)).
Proof.
  assert (Hout :
    (let df1 := if bool_decide ("room_id/id" ∈ columns df)
                then rename "room_id/id" "room_id_id" df else df in
     if bool_decide ("out/in" ∈ columns df1)
     then rename "out/in" "out_in" df1 else df1) = generic_table df).
  { cbv zeta. rewrite !rename_if.
    unfold rename, generic_table. cbn [df_index df_data].
    f_equal. rewrite <- list_fmap_compose. apply list_fmap_ext.
    intros i [k v] _. unfold compose. cbn [fst snd]. f_equal.
    symmetry. apply generic_label_two_steps. }
  unfold _transform_generic_format.
  cbv beta iota zeta delta [bind ret print say].
  cbv zeta in Hout. rewrite Hout. cbn [w_rng w_out w_clock].
  rewrite <- !app_assoc. reflexivity.
Qed.

Lemma generic_label_idem c : generic_label (generic_label c) = generic_label c.
Proof.
  unfold generic_label.
  destruct (String.eqb c "room_id/id") eqn:E1; [reflexivity|].
  destruct (String.eqb c "out/in") eqn:E2; [reflexivity|].
  rewrite E1, E2. reflexivity.
Qed.

Lemma generic_label_clean c :
  generic_label c <> "room_id/id" /\ generic_label c <> "out/in".
Proof.
  unfold generic_label.
  destruct (String.eqb c "room_id/id") eqn:E1; [split; discriminate|].
  destruct (String.eqb c "out/in") eqn:E2; [split; discriminate|].
  apply String.eqb_neq in E1, E2. split; assumption.
Qed.

(** X12. The generic treatment always returns, and its result has no column
    labelled [room_id/id] or [out/in]. Treating the result again gives the
    same table; a table that has neither label is returned as it is. The
    world keeps its generator and its clock. *)
Theorem generic_result_is_clean_and_stable df w :
  exists out w',
    _transform_generic_format df w = (inr out, w') /\
    w_rng w' = w_rng w /\ w_clock w' = w_clock w /\
    ("room_id/id" ∉ columns out) /\
    ("out/in" ∉ columns out) /\
    (forall w2, (_transform_generic_format out w2).1 = inr out) /\
    ("room_id/id" ∉ columns df -> "out/in" ∉ columns df -> out = df).
Proof.
  eexists _, _. split; [apply generic_run|].
  split; [reflexivity|]. split; [reflexivity|].
  assert (Hcols : columns (generic_table df) = generic_label <$> columns df).
  { unfold generic_table, columns. cbn [df_data].
    rewrite <- !list_fmap_compose. reflexivity. }
  split; [|split; [|split]].
  - rewrite Hcols. intros H. apply list_elem_of_fmap in H as (c & Hc & _).
    destruct (generic_label_clean c) as [N _]. congruence.
  - rewrite Hcols. intros H. apply list_elem_of_fmap in H as (c & Hc & _).
    destruct (generic_label_clean c) as [_ N]. congruence.
  - intros w2. rewrite generic_run. cbn [fst]. f_equal.
    unfold generic_table. cbn [df_index df_data]. f_equal.
    rewrite <- list_fmap_compose. apply list_fmap_ext.
    intros i [k v] _. unfold compose. cbn [fst snd]. f_equal.
    apply generic_label_idem.
  - intros H1 H2.
    rewrite <- (rename_absent "room_id/id" "room_id_id" df H1) at 2.
    rewrite <- (rename_absent "out/in" "out_in"
                  (rename "room_id/id" "room_id_id" df)) at 1
      by (rewrite (rename_absent _ _ _ H1); exact H2).
    unfold rename, generic_table. cbn [df_index df_data]. f_equal.
    rewrite <- list_fmap_compose. apply list_fmap_ext.
    intros i [k v] _. unfold compose. cbn [fst snd]. f_equal.
    apply generic_label_two_steps.
Qed.

(** *** Files that need no synthesis *)

(** a table that is canonical, or not the vendor's, keeps its row labels
    through the dispatch, which returns and leaves generator and clock *)
Lemma dispatch_keeps_rows df file_name w :
  issubset expected_columns df = true \/ issubset kaggle_columns df = false ->
  exists out w',
    _transform_to_standard_format df file_name w = (inr out, w') /\
    df_index out = df_index df /\
    w_rng w' = w_rng w /\ w_clock w' = w_clock w.
Proof.
  intros Hfmt. unfold _transform_to_standard_format.
  destruct (issubset expected_columns df) eqn:E1.
  - exists df, (say (MsgStandardFormat file_name) w).
    split; [reflexivity|]. split; [reflexivity|]. split; reflexivity.
  - destruct Hfmt as [Hfmt|Hfmt]; [discriminate|]. rewrite Hfmt.
    cbv beta iota delta [bind]. rewrite print_say. cbv beta iota.
    rewrite generic_run. eexists _, _.
    split; [reflexivity|]. split; [reflexivity|]. split; reflexivity.
Qed.

(** X13. A decoded file that is canonical, or that is not the vendor's,
    whose table has a row and a column and whose status can be read. The
    generator is left as it was (only the vendor transformation reseeds
    it), and every record yielded holds the row count of the decoded table
    as [total_records]. When every row label is a number, as with the
    labels 0, 1, ... [read_csv] gives by default, no row is lost: the [try]
    body yields one record per row of the decoded table, in order, each
    with the identifier and the number of its row, and does not raise.
    When the first row label is a text or a tuple, as when the rows have
    more fields than the header, the file yields no record: [idx + 1]
    raises [TypeError] at the first row. *)
Theorem plain_file_emits_every_row csv_file file_hash df st w w1 :
  _load_csv_with_fallback csv_file w = (inr (Some df), w1) ->
  empty df = false ->
  issubset expected_columns df = true \/ issubset kaggle_columns df = false ->
  path_stat csv_file = inr st ->
  exists records err w',
    process_file csv_file file_hash w = ((records, err), w') /\
    w_rng w' = w_rng w /\
    Forall (fun r : record =>
              r !! "total_records" = Some (SInt (Z.of_nat (len df)))) records /\
    (Forall (fun idx => numeric idx = true) (df_index df) ->
       err = None /\ Forall2 (identified file_hash) (df_index df) records) /\
    (forall bad rest,
        df_index df = bad :: rest -> numeric bad = false ->
        records = [] /\ err = Some TypeError).
Proof.
  intros Hload Hne Hfmt Hst.
  destruct (dispatch_keeps_rows df (path_name csv_file) w1 Hfmt)
    as (out & w2 & Hdisp & Hidx & Hrng & Hclock).
  destruct (try_encodings_spec csv_file encodings w)
    as (res & w1' & Hrun & Hrng1 & _).
  unfold _load_csv_with_fallback in Hload. rewrite Hload in Hrun.
  injection Hrun as <- <-.
  assert (Hlen : len out = len df) by (unfold len; congruence).
  destruct (process_file_run csv_file file_hash df out st w w1 w2
              Hload Hne Hdisp Hst) as (w' & Hp & Hrng').
  pose proof (yielded_metadata csv_file (st_size st) file_hash
                (clock (w_clock w2)) (len out) (columns out) (iterrows out))
    as (Hmeta & _).
  destruct (yield_records_spec file_hash
              (file_metadata_of csv_file (st_size st) file_hash
                 (clock (w_clock w2)) (len out))
              (columns out) (iterrows out))
    as (good & rest & Hsplit & Hall & Hrest).
  destruct (yield_records file_hash
              (file_metadata_of csv_file (st_size st) file_hash
                 (clock (w_clock w2)) (len out))
              (columns out) (iterrows out)) as [records err].
  cbn [fst snd] in *.
  assert (Hlabels : df_index df = good.*1 ++ rest.*1)
    by (rewrite <- Hidx, <- iterrows_labels, Hsplit, fmap_app; reflexivity).
  assert (Hgood : Forall2 (identified file_hash) (good.*1) records).
  { apply Forall2_fmap_l. eapply Forall2_impl; [exact Hall|].
    intros [idx row] r E. cbn [fst snd] in *.
    apply enrich_lookup in E as (H1 & _). exact H1. }
  exists records, err, w'. split; [exact Hp|]. split; [congruence|].
  split; [|split].
  - eapply Forall_impl; [exact Hmeta|]. intros r (_ & _ & _ & _ & _ & H).
    rewrite <- Hlen. exact H.
  - intros Hnum. rewrite Hlabels in Hnum. apply Forall_app in Hnum as [_ Hnum].
    destruct rest as [|[bad row] rest].
    + rewrite Hlabels, app_nil_r. split; [exact Hrest|exact Hgood].
    + rewrite fmap_cons in Hnum. inversion Hnum as [|? ? Hbad _]; subst.
      destruct Hrest as [Hn _]. cbn [fst] in *. congruence.
  - intros bad rest' Hcons Hbad. rewrite Hlabels in Hcons.
    destruct good as [|[idx row] good].
    + inversion Hall; subst. destruct rest as [|[bad' row'] rest];
        [discriminate Hcons|]. destruct Hrest as [_ ->]. split; reflexivity.
    + rewrite fmap_cons in Hcons. injection Hcons as -> _.
      inversion Hall as [|? r ? ? E _]; subst. cbn [fst snd] in E.
      apply enrich_returns_numeric in E. congruence.
Qed.

(** *** One run *)





End Properties.


(** * The program on concrete inputs *)

Module Scenarios.

Import Demo.

#[local] Existing Instance Demo.libs.

(** ** The registry stub *)

(** C1. One file in the standard format, one reading. The first run emits
    its row; the second run, started in the world the first one left, on the
    same listing, emits the row again: [_get_processed_files] returns the
    empty set whatever has been ingested. *)
Lemma C1_second_run_emits_again :
  _get_processed_files = ∅ /\
  length (rows (run_iot_temperature_pipeline [canonical_file] w0).1) = 1%nat /\
  length (rows (run_iot_temperature_pipeline [canonical_file]
                  (run_iot_temperature_pipeline [canonical_file] w0).2).1) = 1%nat /\
  failure (run_iot_temperature_pipeline [canonical_file]
             (run_iot_temperature_pipeline [canonical_file] w0).2).1 = None.
Proof. repeat split; vm_compute; reflexivity. Qed.

(** C6. The identifier of that row is the same in both runs, and two files
    of the same bytes in one listing give two rows with one identifier. *)
Lemma C6_identifier_repeats :
  let id0 := Some (SStr (digest canonical_csv +:+ "_0")) in
  (fun r : record => r !! "file_record_id")
    <$> rows (run_iot_temperature_pipeline [canonical_file] w0).1 = [id0] /\
  (fun r : record => r !! "file_record_id")
    <$> rows (run_iot_temperature_pipeline [canonical_file]
                (run_iot_temperature_pipeline [canonical_file] w0).2).1 = [id0] /\
  (fun r : record => r !! "file_record_id")
    <$> rows (run_iot_temperature_pipeline
                [canonical_file; file "b.csv" canonical_csv] w0).1 = [id0; id0] /\
  (fun r : record => r !! "file_name")
    <$> rows (run_iot_temperature_pipeline
                [canonical_file; file "b.csv" canonical_csv] w0).1
  = [Some (SStr "a.csv"); Some (SStr "b.csv")].
Proof. repeat split; vm_compute; reflexivity. Qed.

(** ** The hasher *)

(** C7. A name of the listing that no longer leads to a file: the hasher
    raises, and the first resource stops there, before the files that follow.
    A file that exists and cannot be read gets the fallback identifier. *)
Lemma C7_hasher_raises :
  _calculate_file_hash dangling = inl FileNotFoundError /\
  (load_temperature_files [dangling; canonical_file] w0).1
  = ([], Some FileNotFoundError) /\
  _calculate_file_hash unreadable = inr "error_locked.csv_120".
Proof. repeat split; vm_compute; reflexivity. Qed.

(** ** Device ids *)

(** C3, the claim as stated fails. The row of the scenario gets the device
    id [IOT_TEMP_7], which does not end in [00000007]; and of a suffix
    longer than 8 characters the code keeps the first 8, not the last 8. *)
Lemma C3_counterexample :
  find_column "device_id"
    (df_data (vendor_result vendor_df [SStr "__7"] [SStr "28-07-2018 12:00"]
                [29.5%float] ["Office_in"]))
  = Some [SStr "IOT_TEMP_7"] /\
  (_transform_kaggle_format vendor_df w0).1
  = inr (vendor_result vendor_df [SStr "__7"] [SStr "28-07-2018 12:00"]
           [29.5%float] ["Office_in"]) /\
  Text.ends_with "00000007" (device_id_of (SStr "__7")) = false /\
  device_id_of (SStr "log_bd201015xyz") = "IOT_TEMP_BD201015" /\
  Text.take_last 8 "BD201015XYZ" = "01015XYZ".
Proof. repeat split; vm_compute; reflexivity. Qed.

Lemma C3_witness :
  notna (SStr "log_3_cc") = true /\
  exists seg first rest,
    Text.has_char "_" seg = false /\
    (str (SStr "log_3_cc") = seg \/
     exists r, str (SStr "log_3_cc") = r +:+ String "_" seg) /\
    seg = first +:+ rest /\
    String.length first = Nat.min 8 (String.length seg) /\
    device_id_of (SStr "log_3_cc") = "IOT_TEMP_" +:+ Text.upper first.
Proof.
  split; [reflexivity|].
  exact (proj1 (C3_device_id_first_eight (SStr "log_3_cc")) eq_refl).
Defined.

(** ** Indoor and outdoor bases *)

(** C10, the claim as stated fails. The room identifier [Room Admin] holds
    [in]; with the qualifier [Out] its location is [Office_out], which does
    not, and the row gets the outdoor bases 65 and -45. *)
Lemma C10_counterexample :
  Text.contains_ci "in" (str (SStr "Room Admin")) = true /\
  location_of ["room_id/id"; "out/in"] [SStr "Room Admin"; SStr "Out"]
  = inr "Office_out" /\
  indoor "Office_out" = false /\
  base_humidity_of "Office_out" = 65 /\
  base_signal_of "Office_out" = -45 /\
  match (_transform_kaggle_format vendor3_df w0).1 with
  | inr out => find_column "location" (df_data out)
  | inl _ => None
  end = Some [SStr "Office_out"; SStr "Office_in"].
Proof. repeat split; vm_compute; reflexivity. Qed.

Lemma C10_witness :
  vendor_inputs dining_df
    [SStr "log_1_aa"; SStr "log_2_bb"; SStr "log_3_cc"]
    [SStr "28-07-2018 12:00"; SStr "28-07-2018 12:05"; SStr "28-07-2018 12:05"]
    [29.5%float; 31%float; 30.5%float]
    ["Office_out"; "Dining_out"; "Office_in"] /\
  let d := (synthetic_draws (len dining_df) (random_seed 42)).1 in
  exists out w',
    _transform_kaggle_format dining_df w0 = (inr out, w') /\
    Forall2 (fun row loc =>
               exists room qualifier,
                 row_get (columns dining_df) row "room_id/id" = inr room /\
                 row_get (columns dining_df) row "out/in" = inr qualifier /\
                 loc = located room qualifier)
      (values dining_df) ["Office_out"; "Dining_out"; "Office_in"] /\
    find_column "location" (df_data out)
    = Some (dated
              [SStr "28-07-2018 12:00"; SStr "28-07-2018 12:05";
               SStr "28-07-2018 12:05"]
              (SStr <$> ["Office_out"; "Dining_out"; "Office_in"])) /\
    find_column "humidity" (df_data out)
    = Some (dated
              [SStr "28-07-2018 12:00"; SStr "28-07-2018 12:05";
               SStr "28-07-2018 12:05"]
              (SFloat <$> zip_with (fun (lt : string * float) noise =>
                                      humidity_by_location lt.1 lt.2 noise)
                            (zip ["Office_out"; "Dining_out"; "Office_in"]
                                 [29.5%float; 31%float; 30.5%float])
                            (humidity_noise d))) /\
    find_column "signal_strength" (df_data out)
    = Some (dated
              [SStr "28-07-2018 12:00"; SStr "28-07-2018 12:05";
               SStr "28-07-2018 12:05"]
              (SFloat <$> zip_with signal_by_location
                            ["Office_out"; "Dining_out"; "Office_in"]
                            (signal_noise d))) /\
    (forall room qualifier t noise,
        Text.contains_ci "in" (cleaned_room room) = true ->
        humidity_by_location (located room qualifier) t noise
        = humidity_of 45 t noise /\
        signal_by_location (located room qualifier) noise = signal_of (-55) noise).
Proof.
  assert (H : vendor_inputs dining_df
                [SStr "log_1_aa"; SStr "log_2_bb"; SStr "log_3_cc"]
                [SStr "28-07-2018 12:00"; SStr "28-07-2018 12:05";
                 SStr "28-07-2018 12:05"]
                [29.5%float; 31%float; 30.5%float]
                ["Office_out"; "Dining_out"; "Office_in"]).
  { split; [vm_compute; reflexivity|]. split; [vm_compute; reflexivity|].
    split; [|vm_compute; reflexivity].
    exists [SFloat 29.5; SFloat 31; SFloat 30.5].
    split; [vm_compute; reflexivity|vm_compute; reflexivity]. }
  split; [exact H|].
  exact (C10_indoor_by_location dining_df w0 _ _ _ _ H).
Defined.

(** the room [Dining] with the qualifier [Out]: its row gets the indoor
    bases, the row of [Room Admin] with [Out] the outdoor ones *)
Lemma dining_row_is_indoor :
  located (SStr "Dining") (SStr "Out") = "Dining_out" /\
  located (SStr "Room Admin") (SStr "Out") = "Office_out" /\
  match (_transform_kaggle_format dining_df w0).1 with
  | inr out => find_column "humidity" (df_data out)
  | inl _ => None
  end
  = Some (SFloat <$> zip_with (fun (bt : Z * float) noise =>
                                 humidity_of bt.1 bt.2 noise)
                       [(65, 29.5%float); (45, 31%float); (45, 30.5%float)]
                       (samples (normal 0 8) 3 42%nat).1) /\
  match (_transform_kaggle_format dining_df w0).1 with
  | inr out => find_column "signal_strength" (df_data out)
  | inl _ => None
  end
  = Some (SFloat <$> zip_with signal_of [-45; -55; -55]
                       [(-2.5)%float; 0%float; 2.5%float]).
Proof.
  split; [vm_compute; reflexivity|]. split; [vm_compute; reflexivity|].
  split; [vm_compute; reflexivity|vm_compute; reflexivity].
Qed.

(** ** Classification *)

Lemma C4_witness :
  let both :=
    mkDataFrame [LInt 0]
      (df_data canonical_df ++ df_data vendor_df) in
  (expected_columns ⊆ list_to_set (columns both) /\
   kaggle_columns ⊆ list_to_set (columns both) /\
   _transform_to_standard_format both "both.csv" w0
   = (inr both, say (MsgStandardFormat "both.csv") w0)) /\
  (expected_columns ⊈ list_to_set (columns vendor_df) /\
   kaggle_columns ⊆ list_to_set (columns vendor_df) /\
   _transform_to_standard_format vendor_df "kaggle.csv" w0
   = _transform_kaggle_format vendor_df (say (MsgKaggleFormat "kaggle.csv") w0)) /\
  (expected_columns ⊈ list_to_set (columns other_df) /\
   kaggle_columns ⊈ list_to_set (columns other_df) /\
   _transform_to_standard_format other_df "other.csv" w0
   = _transform_generic_format other_df (say (MsgUnknownFormat "other.csv") w0)).
Proof.
  cbv zeta.
  assert (Hboth : expected_columns
                  ⊆ list_to_set (columns (mkDataFrame [LInt 0]
                       (df_data canonical_df ++ df_data vendor_df))))
    by (apply (proj1 (bool_decide_eq_true _)); vm_compute; reflexivity).
  assert (Hboth' : kaggle_columns
                   ⊆ list_to_set (columns (mkDataFrame [LInt 0]
                        (df_data canonical_df ++ df_data vendor_df))))
    by (apply (proj1 (bool_decide_eq_true _)); vm_compute; reflexivity).
  assert (Hv : expected_columns ⊈ list_to_set (columns vendor_df))
    by (apply (proj1 (bool_decide_eq_false _)); vm_compute; reflexivity).
  assert (Hv' : kaggle_columns ⊆ list_to_set (columns vendor_df))
    by (apply (proj1 (bool_decide_eq_true _)); vm_compute; reflexivity).
  assert (Ho : expected_columns ⊈ list_to_set (columns other_df))
    by (apply (proj1 (bool_decide_eq_false _)); vm_compute; reflexivity).
  assert (Ho' : kaggle_columns ⊈ list_to_set (columns other_df))
    by (apply (proj1 (bool_decide_eq_false _)); vm_compute; reflexivity).
  split; [|split].
  - split; [exact Hboth|]. split; [exact Hboth'|].
    exact (proj1 (C4_classification_precedence _ "both.csv" w0) Hboth).
  - split; [exact Hv|]. split; [exact Hv'|].
    exact (proj1 (proj2 (C4_classification_precedence _ "kaggle.csv" w0)) Hv Hv').
  - split; [exact Ho|]. split; [exact Ho'|].
    exact (proj2 (proj2 (C4_classification_precedence _ "other.csv" w0)) Ho Ho').
Defined.

(** ** Dropped rows *)

Lemma C5_witness :
  issubset kaggle_columns vendor3_df = true /\
  len vendor3_df <> 0%nat /\
  (exists temp temperature,
      getitem vendor3_df "temp" = inr temp /\
      astype_float temp = inr temperature) /\
  exists ids noted temperature location out w',
    vendor_inputs vendor3_df ids noted temperature location /\
    _transform_kaggle_format vendor3_df w0 = (inr out, w') /\
    (unparsed noted <= len vendor3_df)%nat /\
    len out = (len vendor3_df - unparsed noted)%nat /\
    w_out w' = w_out w0 ++ (if bool_decide (unparsed noted = 0%nat) then []
                            else [MsgRemoved (unparsed noted)]) /\
    w_rng w' = (synthetic_draws (len vendor3_df) (random_seed 42)).2 /\
    df_index out = dated noted (df_index vendor3_df) /\
    Forall2 (fun full kept : string * list scalar =>
               kept.1 = full.1 /\ kept.2 = dated noted full.2)
      (df_data (vendor_table (df_index vendor3_df) ids noted temperature location
                  (synthetic_draws (len vendor3_df) (random_seed 42)).1))
      (df_data out).
Proof.
  assert (H1 : issubset kaggle_columns vendor3_df = true)
    by (vm_compute; reflexivity).
  assert (H2 : len vendor3_df <> 0%nat) by discriminate.
  assert (H3 : exists temp temperature,
             getitem vendor3_df "temp" = inr temp /\
             astype_float temp = inr temperature)
    by (eexists _, _; split; [vm_compute; reflexivity|vm_compute; reflexivity]).
  split; [exact H1|]. split; [exact H2|]. split; [exact H3|].
  exact (C5_drop_accounting vendor3_df w0 H1 H2 H3).
Defined.

(** C5, the claim as stated fails. A table with the vendor's five columns,
    two rows, one date the format does not read, and a [temp] cell that is
    no number: the claim gives it an output of one row and the count 1; the
    transformation raises [ValueError], returns no table and prints
    nothing. *)
Lemma C5_counterexample :
  issubset expected_columns warm_df = false /\
  issubset kaggle_columns warm_df = true /\
  len warm_df = 2%nat /\
  getitem warm_df "noted_date"
  = inr [SStr "28-07-2018 12:00"; SStr "not a date"] /\
  unparsed [SStr "28-07-2018 12:00"; SStr "not a date"] = 1%nat /\
  (_transform_kaggle_format warm_df w0).1 = inl ValueError /\
  w_out (_transform_kaggle_format warm_df w0).2 = [].
Proof.
  split; [vm_compute; reflexivity|]. split; [vm_compute; reflexivity|].
  split; [reflexivity|]. split; [vm_compute; reflexivity|].
  split; [vm_compute; reflexivity|].
  split; [vm_compute; reflexivity|vm_compute; reflexivity].
Qed.

(** the second of the three readings has no timestamp: one row is dropped,
    the count printed is 1, the rows kept are those labelled 0 and 2 *)
Lemma vendor3_drops_one :
  unparseable [SStr "28-07-2018 12:00"; SStr "not a date"; SStr "28-07-2018 12:05"]
  = 1%nat /\
  match _transform_kaggle_format vendor3_df w0 with
  | (inr out, w') => df_index out = [LInt 0; LInt 2] /\ w_out w' = [MsgRemoved 1]
  | (inl _, _) => False
  end.
Proof. vm_compute. repeat split; reflexivity. Qed.

(** ** The processing log *)


(** three files whose status can be read, one of them without a byte and
    one that cannot be opened: three entries, all [processed]; and a name
    that cannot be stat'ed ahead of a file that can: no entry at all *)
Lemma log_of_three_files :
  (log_file_processing [canonical_file; empty_file; unreadable] w0).1.2 = None /\
  (fun entry : record => (entry !! "file_name", entry !! "status"))
    <$> (log_file_processing [canonical_file; empty_file; unreadable] w0).1.1
  = [(Some (SStr "a.csv"), Some (SStr "processed"));
     (Some (SStr "empty.csv"), Some (SStr "processed"));
     (Some (SStr "locked.csv"), Some (SStr "processed"))] /\
  path_stat canonical_file
  = inr (mkStat (Z.of_nat (length canonical_csv)) 1690000000) /\
  (log_file_processing [dangling; canonical_file] w0).1
  = ([], Some FileNotFoundError).
Proof.
  split; [vm_compute; reflexivity|]. split; [vm_compute; reflexivity|].
  split; [reflexivity|vm_compute; reflexivity].
Qed.

(** ** The generic treatment *)

(** C9, the claim as stated fails. The label [sensor/unit] holds a slash and
    is not renamed. *)
Lemma C9_counterexample :
  issubset expected_columns other_df = false /\
  issubset kaggle_columns other_df = false /\
  Text.has_char "/" "sensor/unit" = true /\
  columns other_df = ["sensor/unit"; "room_id/id"; "value"] /\
  match (_transform_to_standard_format other_df "other.csv" w0).1 with
  | inr out => columns out
  | inl _ => []
  end = ["sensor/unit"; "room_id_id"; "value"].
Proof. repeat split; vm_compute; reflexivity. Qed.

(** ** The order of the samples *)

(** With a generator that records what is asked of it, the transformation
    of a table of two rows leaves this record: the seed, then per kind and in
    this order two samples each of the humidity noise, the battery base, the
    battery noise, the signal noise, the device types and the firmware
    versions. What the generator held before is gone. *)
Lemma samples_in_order :
  let two_rows :=
    mkDataFrame [LInt 0; LInt 1]
      [("id", [SStr "a_1"; SStr "a_2"]);
       ("room_id/id", [SStr "Room Admin"; SStr "Room Admin"]);
       ("noted_date", [SStr "28-07-2018 12:00"; SStr "28-07-2018 12:05"]);
       ("temp", [SInt 29; SInt 30]);
       ("out/in", [SStr "In"; SStr "Out"])] in
  w_rng (_transform_kaggle_format (L := Trace.libs) two_rows
           (mkWorld (L := Trace.libs) [Trace.Choice 3] [] 0)).2
  = [Trace.Seed 42;
     Trace.Normal 0 8; Trace.Normal 0 8;
     Trace.Uniform 70 100; Trace.Uniform 70 100;
     Trace.Normal 0 5; Trace.Normal 0 5;
     Trace.Normal 0 10; Trace.Normal 0 10;
     Trace.Choice 5; Trace.Choice 5;
     Trace.Choice 5; Trace.Choice 5].
Proof. vm_compute. reflexivity. Qed.

(** ** Rows of one file, and the skip *)

Lemma records_of_one_file_witness :
  exists out w2,
    _load_csv_with_fallback vendor3_file w0
    = (inr (Some vendor3_df), say (MsgLoaded "kaggle3.csv" "utf-8") w0) /\
    empty vendor3_df = false /\
    _transform_to_standard_format vendor3_df (path_name vendor3_file)
      (say (MsgLoaded "kaggle3.csv" "utf-8") w0) = (inr out, w2) /\
    path_stat vendor3_file
    = inr (mkStat (Z.of_nat (length vendor3_csv)) 1690000000) /\
    df_index out = [LInt 0; LInt 2] /\
    exists records err w' good rest,
      process_file vendor3_file (digest vendor3_csv) w0 = ((records, err), w') /\
      df_index out = good ++ rest /\
      Forall2 (fun idx (r : record) =>
                 identified (digest vendor3_csv) idx r /\
                 r !! "file_hash" = Some (SStr (digest vendor3_csv)))
        good records /\
      match rest with
      | [] => err = None
      | bad :: _ => numeric bad = false /\ err = Some TypeError
      end /\
      (forall zs : list Z,
          good = LInt <$> zs -> NoDup zs ->
          NoDup ((fun r : record => r !! "file_record_id") <$> records)).
Proof.
  assert (H1 : _load_csv_with_fallback vendor3_file w0
               = (inr (Some vendor3_df), say (MsgLoaded "kaggle3.csv" "utf-8") w0))
    by reflexivity.
  assert (H2 : empty vendor3_df = false) by reflexivity.
  assert (H4 : path_stat vendor3_file
               = inr (mkStat (Z.of_nat (length vendor3_csv)) 1690000000))
    by reflexivity.
  assert (Hok : match (_transform_to_standard_format vendor3_df
                         (path_name vendor3_file)
                         (say (MsgLoaded "kaggle3.csv" "utf-8") w0)).1 with
                | inr out =>
                    match df_index out with
                    | [LInt 0; LInt 2] => true
                    | _ => false
                    end
                | inl _ => false
                end = true) by (vm_compute; reflexivity).
  destruct (_transform_to_standard_format vendor3_df (path_name vendor3_file)
              (say (MsgLoaded "kaggle3.csv" "utf-8") w0))
    as [[e|out] w2] eqn:E; [discriminate Hok|].
  cbn [fst] in Hok. exists out, w2.
  split; [exact H1|]. split; [exact H2|]. split; [reflexivity|].
  split; [exact H4|]. split.
  - repeat match type of Hok with
           | match ?x with _ => _ end = true => destruct x; try discriminate Hok
           end.
    reflexivity.
  - exact (records_of_one_file vendor3_file (digest vendor3_csv) vendor3_df out _
             w0 _ w2 H1 H2 E H4).
Defined.

(** the rows kept of the three readings are those labelled 0 and 2: their
    row numbers are 1 and 3 *)
Lemma vendor3_row_numbers :
  (fun r : record => r !! "row_number")
    <$> (load_temperature_files [vendor3_file] w0).1.1
  = [Some (SInt 1); Some (SInt 3)].
Proof. vm_compute. reflexivity. Qed.

Lemma registered_files_are_skipped_witness :
  Forall (fun p => exists h, _calculate_file_hash p = inr h /\
                             h ∈ ({[ digest canonical_csv ]} : gset string))
    [canonical_file] /\
  (load_loop {[ digest canonical_csv ]} [canonical_file] w0).1 = ([], None) /\
  (load_loop {[ digest canonical_csv ]} [canonical_file] w0).2
  = mkWorld (w_rng w0)
      (w_out w0 ++ ((fun p => MsgSkipping (path_name p)) <$> [canonical_file]))
      (w_clock w0).
Proof.
  assert (H : Forall (fun p => exists h, _calculate_file_hash p = inr h /\
                                h ∈ ({[ digest canonical_csv ]} : gset string))
                [canonical_file]).
  { constructor; [|constructor]. exists (digest canonical_csv).
    split; [vm_compute; reflexivity|]. apply elem_of_singleton. reflexivity. }
  split; [exact H|].
  exact (registered_files_are_skipped _ _ w0 H).
Defined.

(** ** Listings *)

(** a readable file and one that can only be stat'ed, then any file the
    hasher raises on *)
Lemma load_stops_only_where_the_hasher_raises_witness :
  Forall (fun p => exists h, _calculate_file_hash p = inr h)
    [canonical_file; unreadable] /\
  exists rows w',
    load_loop ∅ [canonical_file; unreadable] w0 = ((rows, None), w') /\
    forall bad post e,
      _calculate_file_hash bad = inl e ->
      load_loop ∅ ([canonical_file; unreadable] ++ bad :: post) w0
      = ((rows, Some e), w').
Proof.
  assert (H : Forall (fun p => exists h, _calculate_file_hash p = inr h)
                [canonical_file; unreadable]).
  { constructor; [|constructor; [|constructor]].
    - exists (digest canonical_csv). vm_compute. reflexivity.
    - exists "error_locked.csv_120". vm_compute. reflexivity. }
  split; [exact H|].
  exact (load_stops_only_where_the_hasher_raises ∅ _ w0 H).
Defined.


(** the dangling name stops both resources where it stands *)
Lemma dangling_stops_the_listing :
  (load_temperature_files [canonical_file; dangling; vendor_file] w0).1.2
  = Some FileNotFoundError /\
  length (load_temperature_files [canonical_file; dangling; vendor_file] w0).1.1
  = 1%nat /\
  (log_file_processing [canonical_file; dangling; vendor_file] w0).1.2
  = Some FileNotFoundError /\
  length (log_file_processing [canonical_file; dangling; vendor_file] w0).1.1
  = 1%nat.
Proof.
  split; [vm_compute; reflexivity|]. split; [vm_compute; reflexivity|].
  split; [vm_compute; reflexivity|vm_compute; reflexivity].
Qed.

(** ** What the records of a file share *)

Lemma records_share_file_metadata_witness :
  exists records err w',
    process_file vendor3_file (digest vendor3_csv) w0 = ((records, err), w') /\
    records <> [] /\
    exists st now total,
      path_stat vendor3_file = inr st /\
      Forall (fun r : record =>
                r !! "file_name" = Some (SStr (path_name vendor3_file)) /\
                r !! "file_path" = Some (SStr (path_str vendor3_file)) /\
                r !! "file_size_bytes" = Some (SInt (st_size st)) /\
                r !! "file_hash" = Some (SStr (digest vendor3_csv)) /\
                r !! "ingestion_timestamp" = Some (STime now) /\
                r !! "total_records" = Some (SInt (Z.of_nat total)))
        records /\
      (length records <= total)%nat /\
      (err = None -> total = length records).
Proof.
  assert (Hok : match (process_file vendor3_file (digest vendor3_csv) w0).1.1 with
                | _ :: _ => true
                | [] => false
                end = true) by (vm_compute; reflexivity).
  destruct (process_file vendor3_file (digest vendor3_csv) w0)
    as [[[|r records] err] w'] eqn:E; [discriminate Hok|].
  exists (r :: records), err, w'. split; [reflexivity|].
  assert (Hne : r :: records <> []) by discriminate.
  split; [exact Hne|].
  exact (records_share_file_metadata _ _ _ _ _ _ E Hne).
Defined.

(** the two records of that file say [total_records = 2], and the loop
    ended without an exception *)
Lemma vendor3_total_records :
  (fun r : record => r !! "total_records")
    <$> (process_file vendor3_file (digest vendor3_csv) w0).1.1
  = [Some (SInt 2); Some (SInt 2)] /\
  (process_file vendor3_file (digest vendor3_csv) w0).1.2 = None.
Proof. split; [vm_compute; reflexivity|vm_compute; reflexivity]. Qed.


(** ** The vendor table *)

Lemma vendor_table_shape_witness :
  vendor_inputs vendor3_df
    [SStr "log_1_aa"; SStr "log_2_bb"; SStr "log_3_cc"]
    [SStr "28-07-2018 12:00"; SStr "not a date"; SStr "28-07-2018 12:05"]
    [29.5%float; 31%float; 30.5%float]
    ["Office_out"; "Dining_out"; "Office_in"] /\
  exists out w',
    _transform_kaggle_format vendor3_df w0 = (inr out, w') /\
    columns out = vendor_labels /\
    Forall (fun kv => length kv.2 = len out) (df_data out) /\
    df_index out
    = dated [SStr "28-07-2018 12:00"; SStr "not a date"; SStr "28-07-2018 12:05"]
        (df_index vendor3_df) /\
    find_column "timestamp" (df_data out)
    = Some (STime <$> omap (to_datetime "%d-%m-%Y %H:%M")
              [SStr "28-07-2018 12:00"; SStr "not a date";
               SStr "28-07-2018 12:05"]).
Proof.
  assert (H : vendor_inputs vendor3_df
                [SStr "log_1_aa"; SStr "log_2_bb"; SStr "log_3_cc"]
                [SStr "28-07-2018 12:00"; SStr "not a date";
                 SStr "28-07-2018 12:05"]
                [29.5%float; 31%float; 30.5%float]
                ["Office_out"; "Dining_out"; "Office_in"]).
  { split; [vm_compute; reflexivity|]. split; [vm_compute; reflexivity|].
    split; [|vm_compute; reflexivity].
    exists [SFloat 29.5; SFloat 31; SFloat 30.5].
    split; [vm_compute; reflexivity|vm_compute; reflexivity]. }
  split; [exact H|].
  exact (vendor_table_shape vendor3_df w0 _ _ _ _ H).
Defined.

(** of the rows labelled 0, 1, 2 the second has a date the format does not
    read: the rows kept are labelled 0 and 2, with the readings of their
    dates *)
Lemma vendor3_kept_labels :
  dated [SStr "28-07-2018 12:00"; SStr "not a date"; SStr "28-07-2018 12:05"]
    (df_index vendor3_df) = [LInt 0; LInt 2] /\
  omap (to_datetime "%d-%m-%Y %H:%M")
    [SStr "28-07-2018 12:00"; SStr "not a date"; SStr "28-07-2018 12:05"]
  = [1532779200000000000; 1532779500000000000].
Proof. split; [vm_compute; reflexivity|vm_compute; reflexivity]. Qed.

Lemma vendor_fails_only_on_temp_witness :
  issubset kaggle_columns vendor3_df = true /\
  len vendor3_df <> 0%nat /\
  ((exists out w', _transform_kaggle_format vendor3_df w0 = (inr out, w')) \/
   (exists temp e,
       getitem vendor3_df "temp" = inr temp /\
       astype_float temp = inl e /\
       (e = ValueError \/ e = TypeError) /\
       _transform_kaggle_format vendor3_df w0 = (inl e, w0))).
Proof.
  assert (H1 : issubset kaggle_columns vendor3_df = true)
    by (vm_compute; reflexivity).
  assert (H2 : len vendor3_df <> 0%nat) by discriminate.
  split; [exact H1|]. split; [exact H2|].
  exact (vendor_fails_only_on_temp vendor3_df w0 H1 H2).
Defined.

(** a vendor table whose [temp] holds a text that is no number: the
    transformation raises [ValueError] and leaves the world as it was *)
Lemma vendor_temp_not_a_number :
  let bad :=
    mkDataFrame [LInt 0]
      [("id", [SStr "__7"]);
       ("room_id/id", [SStr "Room Admin"]);
       ("noted_date", [SStr "28-07-2018 12:00"]);
       ("temp", [SStr "warm"]);
       ("out/in", [SStr "In"])] in
  issubset kaggle_columns bad = true /\
  _transform_kaggle_format bad w0 = (inl ValueError, w0).
Proof. split; [vm_compute; reflexivity|reflexivity]. Qed.

(** ** A file in the standard format, and one run *)

Lemma plain_file_emits_every_row_witness :
  _load_csv_with_fallback canonical_file w0
  = (inr (Some canonical_df), say (MsgLoaded "a.csv" "utf-8") w0) /\
  empty canonical_df = false /\
  (issubset expected_columns canonical_df = true \/
   issubset kaggle_columns canonical_df = false) /\
  path_stat canonical_file
  = inr (mkStat (Z.of_nat (length canonical_csv)) 1690000000) /\
  exists records err w',
    process_file canonical_file (digest canonical_csv) w0 = ((records, err), w') /\
    w_rng w' = w_rng w0 /\
    Forall (fun r : record =>
              r !! "total_records" = Some (SInt (Z.of_nat (len canonical_df))))
      records /\
    (Forall (fun idx => numeric idx = true) (df_index canonical_df) ->
       err = None /\
       Forall2 (identified (digest canonical_csv)) (df_index canonical_df) records) /\
    (forall bad rest,
        df_index canonical_df = bad :: rest -> numeric bad = false ->
        records = [] /\ err = Some TypeError).
Proof.
  assert (H1 : _load_csv_with_fallback canonical_file w0
               = (inr (Some canonical_df), say (MsgLoaded "a.csv" "utf-8") w0))
    by reflexivity.
  assert (H2 : empty canonical_df = false) by reflexivity.
  assert (H3 : issubset expected_columns canonical_df = true \/
               issubset kaggle_columns canonical_df = false)
    by (left; vm_compute; reflexivity).
  assert (H4 : path_stat canonical_file
               = inr (mkStat (Z.of_nat (length canonical_csv)) 1690000000))
    by reflexivity.
  split; [exact H1|]. split; [exact H2|]. split; [exact H3|]. split; [exact H4|].
  exact (plain_file_emits_every_row canonical_file (digest canonical_csv)
           canonical_df _ w0 _ H1 H2 H3 H4).
Defined.

(** a file whose rows have one field more than the header: the rows are
    labelled [r1] and [r2], [idx + 1] raises at the first, the file yields
    no record and the loop goes on to the next file *)
Lemma labelled_file_yields_nothing :
  (_load_csv_with_fallback labelled_file w0).1 = inr (Some labelled_df) /\
  issubset expected_columns labelled_df = true /\
  (process_file labelled_file (digest labelled_csv) w0).1 = ([], Some TypeError) /\
  w_out (try_process_file labelled_file (digest labelled_csv) w0).2
  = [MsgLoaded "labelled.csv" "utf-8"; MsgStandardFormat "labelled.csv";
     MsgError "labelled.csv" TypeError] /\
  length (load_temperature_files [labelled_file; canonical_file] w0).1.1 = 1%nat /\
  (load_temperature_files [labelled_file; canonical_file] w0).1.2 = None.
Proof.
  split; [vm_compute; reflexivity|]. split; [vm_compute; reflexivity|].
  split; [vm_compute; reflexivity|]. split; [vm_compute; reflexivity|].
  split; [vm_compute; reflexivity|vm_compute; reflexivity].
Qed.

(** ** Columns and the keys of the update *)

Lemma metadata_wins_over_columns_witness :
  _load_csv_with_fallback numbered_file w0
  = (inr (Some numbered_df), say (MsgLoaded "numbered.csv" "utf-8") w0) /\
  empty numbered_df = false /\
  _transform_to_standard_format numbered_df (path_name numbered_file)
    (say (MsgLoaded "numbered.csv" "utf-8") w0)
  = (inr numbered_df,
     say (MsgStandardFormat "numbered.csv")
       (say (MsgLoaded "numbered.csv" "utf-8") w0)) /\
  path_stat numbered_file
  = inr (mkStat (Z.of_nat (length numbered_csv)) 1690000000) /\
  NoDup (columns numbered_df) /\
  exists records err w',
    process_file numbered_file (digest numbered_csv) w0 = ((records, err), w') /\
    Forall2 (fun (row : list scalar) (r : record) =>
               r !! "file_name" = Some (SStr (path_name numbered_file)) /\
               r !! "file_path" = Some (SStr (path_str numbered_file)) /\
               r !! "file_size_bytes"
               = Some (SInt (st_size
                               (mkStat (Z.of_nat (length numbered_csv)) 1690000000))) /\
               r !! "file_hash" = Some (SStr (digest numbered_csv)) /\
               r !! "ingestion_timestamp"
               = Some (STime (clock
                                (w_clock
                                   (say (MsgStandardFormat "numbered.csv")
                                      (say (MsgLoaded "numbered.csv" "utf-8") w0))))) /\
               r !! "total_records" = Some (SInt (Z.of_nat (len numbered_df))) /\
               is_Some (r !! "file_record_id") /\
               is_Some (r !! "row_number") /\
               forall i c,
                 columns numbered_df !! i = Some c -> c ∉ reserved_keys ->
                 r !! c = row !! i)
      (take (length records) (values numbered_df)) records.
Proof.
  assert (H1 : _load_csv_with_fallback numbered_file w0
               = (inr (Some numbered_df),
                  say (MsgLoaded "numbered.csv" "utf-8") w0)) by reflexivity.
  assert (H2 : empty numbered_df = false) by reflexivity.
  assert (H3 : _transform_to_standard_format numbered_df (path_name numbered_file)
                 (say (MsgLoaded "numbered.csv" "utf-8") w0)
               = (inr numbered_df,
                  say (MsgStandardFormat "numbered.csv")
                    (say (MsgLoaded "numbered.csv" "utf-8") w0))) by reflexivity.
  assert (H4 : path_stat numbered_file
               = inr (mkStat (Z.of_nat (length numbered_csv)) 1690000000))
    by reflexivity.
  assert (H5 : NoDup (columns numbered_df))
    by (apply (proj1 (bool_decide_eq_true _)); vm_compute; reflexivity).
  split; [exact H1|]. split; [exact H2|]. split; [exact H3|].
  split; [exact H4|]. split; [exact H5|].
  exact (metadata_wins_over_columns numbered_file (digest numbered_csv)
           numbered_df numbered_df _ w0 _ _ H1 H2 H3 H4 H5).
Defined.

(** the file has a column [row_number] holding 99: the record of its row
    says [row_number = 1], and carries the other columns as they are *)
Lemma numbered_file_record :
  (fun r : record => (r !! "row_number", r !! "device_id", r !! "temperature"))
    <$> (process_file numbered_file (digest numbered_csv) w0).1.1
  = [(Some (SInt 1), Some (SStr "d1"), Some (SFloat 20.5))].
Proof. vm_compute. reflexivity. Qed.


(** that run emits the reading of the first file and the two readings kept
    of the last: three rows, four log entries *)
Lemma run_of_four_files :
  length (rows (run_iot_temperature_pipeline
                  [canonical_file; empty_file; unreadable; vendor3_file] w0).1)
  = 3%nat /\
  length (log (run_iot_temperature_pipeline
                 [canonical_file; empty_file; unreadable; vendor3_file] w0).1)
  = 4%nat.
Proof. split; [vm_compute; reflexivity|vm_compute; reflexivity]. Qed.

End Scenarios.
